(** * The tenant provisioner of rag-application: [functions/create.py]

    A shallow embedding of [lambda_handler] (functions/create.py) and of the
    stub lister (functions/list_kb.py), and the properties of the
    provisioning workflow proved about them.

    Conventions of the embedding.
    - A Python [str] is a list of Unicode code points ([str := list N]).
      The behaviour of [str.lower], [str.strip] and [str.isalnum] on ASCII
      is written out; for code points from 128 on it is read from the
      Unicode character database, which is a parameter ([UnicodeData]).
    - What the handler does to the outside world is a trace of [effect]s:
      the lines it prints and the calls it makes on the boto3 and
      opensearch-py clients, in program order.
    - What the outside world answers is a [World]: the process environment,
      the clock, and for every client call either a reply or the exception
      it raises.
    - Python's [return] and [raise] are the two abrupt outcomes of the
      statement monad [M]; [try_except] is the [try: ... except C: ...]
      statement. *)

From Stdlib Require Import List NArith ZArith Bool String Ascii Lia.
From Stdlib Require Import DecimalString.
Import ListNotations.

Set Implicit Arguments.
Set Warnings "-register-all".
Open Scope string_scope.
Open Scope list_scope.

(* ===================================================================== *)
(** ** Python strings                                                     *)
(* ===================================================================== *)

Definition str := list N.

Definition of_string (s : string) : str :=
  map N_of_ascii (list_ascii_of_string s).

Coercion of_string : string >-> str.

Definition cat (a b : str) : str := a ++ b.
Infix "+++" := cat (at level 60, right associativity).

Definition str_eqb (a b : str) : bool :=
  if list_eq_dec N.eq_dec a b then true else false.

(** The character [chr(34)], which the literals of this file cannot hold. *)
Definition dquote : str := [34%N].
(** The character [chr(39)]. *)
Definition squote : str := [39%N].

(** The part of the Unicode character database the handler consults through
    [str.lower], [str.strip] and [str.isalnum], for code points from 128 on.
    [ucd_lower before c after] is the lower-case expansion of [c] standing
    between [before] and [after] (CPython lower-cases U+03A3 by context). *)
Record UnicodeData := {
  ucd_isalnum : N -> bool;
  ucd_isspace : N -> bool;
  ucd_lower : str -> N -> str -> str
}.

Section Str.
Variable U : UnicodeData.

Definition between (lo hi c : N) : bool := (lo <=? c)%N && (c <=? hi)%N.

(** [c.isalpha() or c.isdecimal() or c.isdigit() or c.isnumeric()] *)
Definition isalnum_cp (c : N) : bool :=
  if (c <? 128)%N
  then between 48 57 c || between 65 90 c || between 97 122 c
  else ucd_isalnum U c.

(** [c.isspace()]: on ASCII, TAB..CR, FS..US and the space. *)
Definition isspace_cp (c : N) : bool :=
  if (c <? 128)%N
  then between 9 13 c || between 28 32 c
  else ucd_isspace U c.

(** [s.isalnum()]: every character is alphanumeric and there is at least
    one character. *)
Definition isalnum (s : str) : bool :=
  match s with
  | [] => false
  | _ => forallb isalnum_cp s
  end.

Fixpoint lower_from (before s : str) : str :=
  match s with
  | [] => []
  | c :: rest =>
      (if (c <? 128)%N
       then [if between 65 90 c then (c + 32)%N else c]
       else ucd_lower U before c rest)
      ++ lower_from (before ++ [c]) rest
  end.

(** [s.lower()] *)
Definition lower (s : str) : str := lower_from [] s.

Fixpoint lstrip (s : str) : str :=
  match s with
  | [] => []
  | c :: rest => if isspace_cp c then lstrip rest else s
  end.

(** [s.strip()] *)
Definition strip (s : str) : str := rev (lstrip (rev (lstrip s))).

End Str.

Fixpoint startswith (s p : str) {struct p} : bool :=
  match p, s with
  | [], _ => true
  | a :: p', b :: s' => (a =? b)%N && startswith s' p'
  | _ :: _, [] => false
  end.

(** The left-to-right scan of [str.replace]: [skip] counts the characters
    of the occurrence of [old] just matched that are still to be passed. *)
Fixpoint replace_scan (old new : str) (skip : nat) (s : str) : str :=
  match s with
  | [] => []
  | c :: rest =>
      match skip with
      | S k => replace_scan old new k rest
      | O =>
          if startswith s old
          then new ++ replace_scan old new (List.length old - 1) rest
          else c :: replace_scan old new O rest
      end
  end.

(** [s.replace(old, new)] for a non-empty [old] (the handler only replaces
    the literals ['-'], ['_'], ['https://'] and ['http://']). *)
Definition replace (s old new : str) : str := replace_scan old new O s.

(* ===================================================================== *)
(** ** JSON values and [json.dumps]                                       *)
(* ===================================================================== *)

(** The Python values [json.loads] builds and [json.dumps] writes.  A float
    is carried as its [repr]. *)
Inductive json :=
| JNull
| JBool (b : bool)
| JInt (z : Z)
| JFloat (repr : str)
| JStr (s : str)
| JList (items : list json)
| JDict (entries : list (str * json)).

Definition JS (s : string) : json := JStr s.
Definition entry (k : string) (v : json) : str * json := (of_string k, v).

Fixpoint dict_get (entries : list (str * json)) (k : str) : option json :=
  match entries with
  | [] => None
  | (k', v) :: rest => if str_eqb k' k then Some v else dict_get rest k
  end.

Definition hex_digit (n : N) : N :=
  if (n <? 10)%N then (48 + n)%N else (87 + n)%N.

(** ['\\u{0:04x}'.format(n)] *)
Definition u_escape (n : N) : str :=
  "\u" +++ [hex_digit (N.land (N.shiftr n 12) 15);
            hex_digit (N.land (N.shiftr n 8) 15);
            hex_digit (N.land (N.shiftr n 4) 15);
            hex_digit (N.land n 15)].

(** One character of a string under [ensure_ascii=True]. *)
Definition escape_cp (c : N) : str :=
  if (c =? 34)%N then "\" +++ dquote
  else if (c =? 92)%N then "\\"
  else if (c =? 10)%N then "\n"
  else if (c =? 13)%N then "\r"
  else if (c =? 9)%N then "\t"
  else if (c =? 12)%N then "\f"
  else if (c =? 8)%N then "\b"
  else if between 32 126 c then [c]
  else if (c <? 65536)%N then u_escape c
  else let v := (c - 65536)%N in
       u_escape (55296 + N.land (N.shiftr v 10) 1023)
       +++ u_escape (56320 + N.land v 1023).

Definition dumps_str (s : str) : str :=
  dquote +++ flat_map escape_cp s +++ dquote.

Definition dumps_int (z : Z) : str :=
  of_string (NilZero.string_of_int (Z.to_int z)).

Definition spaces (n : nat) : str := repeat 32%N n.

(** The text between two items, and around the items, of a container:
    [', '] and nothing without [indent], a newline and the indentation of
    the level with it. *)
Definition item_sep (indent : option nat) (level : nat) : str :=
  match indent with
  | None => ", "
  | Some n => [44%N; 10%N] +++ spaces (n * level)
  end.

Definition newline_indent (indent : option nat) (level : nat) : str :=
  match indent with
  | None => []
  | Some n => [10%N] +++ spaces (n * level)
  end.

Fixpoint dumps_at (indent : option nat) (level : nat) (v : json) : str :=
  match v with
  | JNull => "null"
  | JBool true => "true"
  | JBool false => "false"
  | JInt z => dumps_int z
  | JFloat r => r
  | JStr s => dumps_str s
  | JList [] => "[]"
  | JList (x :: xs) =>
      "[" +++ newline_indent indent (S level)
      +++ dumps_at indent (S level) x
      +++ (fix more (l : list json) : str :=
             match l with
             | [] => []
             | y :: ys =>
                 item_sep indent (S level)
                 +++ dumps_at indent (S level) y +++ more ys
             end) xs
      +++ newline_indent indent level +++ "]"
  | JDict [] => "{}"
  | JDict ((k, x) :: xs) =>
      "{" +++ newline_indent indent (S level)
      +++ dumps_str k +++ ": " +++ dumps_at indent (S level) x
      +++ (fix more (l : list (str * json)) : str :=
             match l with
             | [] => []
             | (k', y) :: ys =>
                 item_sep indent (S level)
                 +++ dumps_str k' +++ ": "
                 +++ dumps_at indent (S level) y +++ more ys
             end) xs
      +++ newline_indent indent level +++ "}"
  end.

(** [json.dumps(v)] and [json.dumps(v, indent=n)] *)
Definition json_dumps (v : json) : str := dumps_at None 0 v.
Definition json_dumps_indent (n : nat) (v : json) : str := dumps_at (Some n) 0 v.

(* ===================================================================== *)
(** ** Exceptions, responses, effects                                     *)
(* ===================================================================== *)

(** The classes of exception the handler tells apart in its [except]
    clauses.  Every exception modelled is an instance of [Exception];
    [OtherException] is any class that is none of the first five (botocore's
    [EndpointConnectionError], opensearch-py's [TransportError], ...). *)
Inductive exn_class :=
| ClientError | JSONDecodeError | KeyError | TypeError | AttributeError
| OtherException.

(** An exception: its class and [str(e)]. *)
Record exn := Exn { cls : exn_class; msg : str }.

Definition is_ClientError (e : exn) : bool :=
  match cls e with ClientError => true | _ => false end.
Definition is_JSONDecodeError (e : exn) : bool :=
  match cls e with JSONDecodeError => true | _ => false end.
Definition is_KeyError (e : exn) : bool :=
  match cls e with KeyError => true | _ => false end.
Definition is_Exception (e : exn) : bool := true.

(** [KeyError(key)] for a key that is a plain identifier: [str(e)] is the
    [repr] of the key, the key between single quotes. *)
Definition key_error (key : str) : exn :=
  Exn KeyError (squote +++ key +++ squote).

Record response := {
  statusCode : Z;
  headers : list (str * str);
  body : str
}.

Record kb_summary := { name : str; knowledgeBaseId : str }.

(** The calls on the clients, with their keyword arguments. *)
Inductive call :=
| ListKnowledgeBases
| PutObject (Bucket Key Body ContentType : str)
| IndicesExists (index : str)
| IndicesCreate (index : str) (body : json)
| CreateKnowledgeBase (name description roleArn : str)
    (knowledgeBaseConfiguration storageConfiguration : json)
| CreateDataSource (knowledgeBaseId name description : str)
    (dataSourceConfiguration : json)
| DeleteKnowledgeBase (knowledgeBaseId : str).

Inductive effect :=
| Print (line : str)
  (** lines 51-70 have completed: the bedrock-agent and s3 clients are
      built for [region], the signer too, and the OpenSearch client for
      [host], port 443, timeout 60 *)
| Connect (region host : str)
| Call (c : call).

(** The calls of a trace. *)
Definition calls_of (t : list effect) : list call :=
  flat_map (fun e => match e with Call c => [c] | _ => [] end) t.

(* ===================================================================== *)
(** ** Statements                                                         *)
(* ===================================================================== *)

Inductive outcome (A : Type) :=
| Normal (a : A)
| Return (r : response)
| Raise (e : exn).
Arguments Normal {A} a.
Arguments Return {A} r.
Arguments Raise {A} e.

(** A statement: how it ends and what it did on the way. *)
Definition M (A : Type) : Type := outcome A * list effect.

Definition pure {A} (a : A) : M A := (Normal a, []).
Definition return_ {A} (r : response) : M A := (Return r, []).
Definition raise {A} (e : exn) : M A := (Raise e, []).
Definition print (line : str) : M unit := (Normal tt, [Print line]).

(** The statement [m], run when the effects [t] have taken place. *)
Definition after {A} (t : list effect) (m : M A) : M A :=
  (fst m, t ++ snd m).

Definition bind {A B} (m : M A) (k : A -> M B) : M B :=
  match m with
  | (Normal a, t) => after t (k a)
  | (Return r, t) => (Return r, t)
  | (Raise e, t) => (Raise e, t)
  end.

Notation "x <- m ;; k" := (bind m (fun x => k))
  (at level 100, m at next level, right associativity).
Notation "m ;; k" := (bind m (fun _ => k))
  (at level 100, right associativity).

(** [if c: body] *)
Definition when (c : bool) (body : M unit) : M unit :=
  if c then body else pure tt.

(** [for x in xs: body x] *)
Fixpoint for_each {A} (xs : list A) (body : A -> M unit) : M unit :=
  match xs with
  | [] => pure tt
  | x :: rest => body x ;; for_each rest body
  end.

(** [try: m  except C1 as e: h1 e  except C2 as e: h2 e ...]: the first
    clause whose class the exception is an instance of handles it; an
    exception no clause matches, and whatever a handler raises, goes on. *)
Fixpoint select_clause {A} (clauses : list ((exn -> bool) * (exn -> M A)))
    (e : exn) : option (M A) :=
  match clauses with
  | [] => None
  | (catches, h) :: rest =>
      if catches e then Some (h e) else select_clause rest e
  end.

Definition try_except {A} (m : M A)
    (clauses : list ((exn -> bool) * (exn -> M A))) : M A :=
  match m with
  | (Raise e, t) =>
      match select_clause clauses e with
      | Some h => after t h
      | None => (Raise e, t)
      end
  | _ => m
  end.

(* ===================================================================== *)
(** ** The outside world                                                  *)
(* ===================================================================== *)

Inductive reply (A : Type) :=
| Ok (a : A)
| Fails (e : exn).
Arguments Ok {A} a.
Arguments Fails {A} e.

(** What the environment of one invocation answers.  The handler makes each
    call at most once, so one reply per call describes it. *)
Record World := {
  environ : list (str * str);
  (** [datetime.now().strftime("%Y-%m-%d %H:%M:%S UTC")] *)
  now : str;
  (** lines 51-70 *)
  clients : reply unit;
  (** [existing_kbs['knowledgeBaseSummaries']] *)
  list_knowledge_bases : reply (list kb_summary);
  put_object : reply unit;
  indices_exists : reply bool;
  (** the [repr] of the response *)
  indices_create : reply str;
  (** [kb_response['knowledgeBase']['knowledgeBaseId']] *)
  create_knowledge_base : reply str;
  (** [ds_response['dataSource']['dataSourceId']] *)
  create_data_source : reply str;
  delete_knowledge_base : reply unit
}.

(** A client call: it is recorded, and ends as the world replies. *)
Definition invoke {A} (c : call) (r : reply A) : M A :=
  (match r with Ok a => Normal a | Fails e => Raise e end, [Call c]).

(** Lines 51-70: when one of them raises, no search client is built and
    nothing is recorded. *)
Definition connect (region host : str) (r : reply unit) : M unit :=
  match r with
  | Ok a => (Normal a, [Connect region host])
  | Fails e => (Raise e, [])
  end.

Fixpoint env_lookup (env : list (str * str)) (k : str) : option str :=
  match env with
  | [] => None
  | (k', v) :: rest => if str_eqb k' k then Some v else env_lookup rest k
  end.

(** [os.environ[key]] *)
Definition os_environ (w : World) (key : str) : M str :=
  match env_lookup (environ w) key with
  | Some v => pure v
  | None => raise (key_error key)
  end.

(** The ['body'] entry of the event API Gateway hands over, seen through
    [json.loads]: [null] (a request without body), a text [json.loads]
    rejects, with the [str] of the [JSONDecodeError] it raises, or a text
    [json.loads] turns into the value [v] (the texts [NaN] and [Infinity],
    which are not JSON, are among them: they load as floats). *)
Inductive body_text :=
| BodyNull
| BodyMalformed (err : str)
| BodyJson (v : json).

(** [event_body = None]: the event has no ['body'] key. *)
Record Event := { event_body : option body_text }.

(** [event['body']] *)
Definition event_getitem_body (event : Event) : M body_text :=
  match event_body event with
  | Some b => pure b
  | None => raise (key_error "body")
  end.

(** [json.loads(b)] *)
Definition json_loads (b : body_text) : M json :=
  match b with
  | BodyNull =>
      raise (Exn TypeError
        "the JSON object must be str, bytes or bytearray, not NoneType")
  | BodyMalformed err => raise (Exn JSONDecodeError err)
  | BodyJson v => pure v
  end.

(** [type(v).__name__] *)
Definition type_name (v : json) : str :=
  match v with
  | JNull => "NoneType"
  | JBool _ => "bool"
  | JInt _ => "int"
  | JFloat _ => "float"
  | JStr _ => "str"
  | JList _ => "list"
  | JDict _ => "dict"
  end.

(** [v[key]] for a string [key] that is a plain identifier (CPython 3.9,
    the runtime the stack declares). *)
Definition getitem (v : json) (key : str) : M json :=
  match v with
  | JDict entries =>
      match dict_get entries key with
      | Some x => pure x
      | None => raise (key_error key)
      end
  | JList _ =>
      raise (Exn TypeError "list indices must be integers or slices, not str")
  | JStr _ => raise (Exn TypeError "string indices must be integers")
  | _ =>
      raise (Exn TypeError
        (squote +++ type_name v +++ squote +++ " object is not subscriptable"))
  end.

(** [v.lower()] *)
Definition method_lower (U : UnicodeData) (v : json) : M str :=
  match v with
  | JStr s => pure (lower U s)
  | _ =>
      raise (Exn AttributeError
        (squote +++ type_name v +++ squote
         +++ " object has no attribute 'lower'"))
  end.

(* ===================================================================== *)
(** ** functions/create.py                                                *)
(* ===================================================================== *)

Definition header (k v : string) : str * str := (of_string k, of_string v).

(** lines 9-14 *)
Definition cors_headers : list (str * str) :=
  [ header "Content-Type" "application/json";
    header "Access-Control-Allow-Origin" "*";
    header "Access-Control-Allow-Methods" "POST";
    header "Access-Control-Allow-Headers" "Content-Type, Authorization" ].

(** [{'statusCode': status, 'headers': headers, 'body': json.dumps(v)}] *)
Definition respond (status : Z) (v : json) : response :=
  {| statusCode := status; headers := cors_headers; body := json_dumps v |}.

(** [{'error': text}] *)
Definition error_body (text : str) : json := JDict [entry "error" (JStr text)].

(** The values read from the environment, lines 39-44. *)
Record config := {
  opensearch_collection_arn : str;
  opensearch_collection_endpoint : str;
  s3_bucket_name : str;
  s3_bucket_arn : str;
  bedrock_kb_role_arn : str;
  region : str
}.

Definition read_config (w : World) : M config :=
  a <- os_environ w "OPENSEARCH_COLLECTION_ARN" ;;
  b <- os_environ w "OPENSEARCH_COLLECTION_ENDPOINT" ;;
  c <- os_environ w "S3_BUCKET_NAME" ;;
  d <- os_environ w "S3_BUCKET_ARN" ;;
  e <- os_environ w "BEDROCK_KB_ROLE_ARN" ;;
  f <- os_environ w "REGION" ;;
  pure {| opensearch_collection_arn := a;
          opensearch_collection_endpoint := b;
          s3_bucket_name := c;
          s3_bucket_arn := d;
          bedrock_kb_role_arn := e;
          region := f |}.

(** lines 76-83 *)
Definition conflict_response (client_id : str) (kb : kb_summary) : response :=
  respond 409 (JDict
    [ entry "error"
        (JStr ("Knowledge Base for client " +++ dquote +++ client_id
               +++ dquote +++ " already exists"));
      entry "existing_kb_id" (JStr (knowledgeBaseId kb)) ]).

(** lines 72-85: the duplicate check. *)
Definition check_existing (w : World) (client_id : str) : M unit :=
  try_except
    (existing_kbs <- invoke ListKnowledgeBases (list_knowledge_bases w) ;;
     for_each existing_kbs (fun kb =>
       when (str_eqb (name kb) ("kb-" +++ client_id))
         (return_ (conflict_response client_id kb))))
    [ (is_ClientError,
       fun e => print ("Warning checking existing KBs: " +++ msg e)) ].

(** lines 91-105: the marker object of the tenant's folder.  [Body] is the
    text whose UTF-8 encoding is sent; the encoding of line 95 cannot fail,
    an accepted identifier holding no surrogate
    ([accepted_identifier_encodable]). *)
Definition create_folder (w : World) (cfg : config)
    (folder_key readme_content : str) : M unit :=
  try_except
    (invoke (PutObject (s3_bucket_name cfg) (folder_key +++ "README.md")
                       readme_content "text/markdown")
            (put_object w) ;;
     print ("Carpeta creada: s3://" +++ s3_bucket_name cfg +++ "/"
            +++ folder_key))
    [ (is_ClientError,
       fun e =>
         print ("Error creando carpeta S3: " +++ msg e) ;;
         return_ (respond 500
           (error_body ("Failed to create S3 folder: " +++ msg e)))) ].

(** lines 112-140 *)
Definition index_body : json :=
  JDict
    [ entry "settings" (JDict
        [ entry "index.knn" (JBool true);
          entry "number_of_shards" (JInt 1);
          entry "number_of_replicas" (JInt 0) ]);
      entry "mappings" (JDict
        [ entry "properties" (JDict
            [ entry "vector" (JDict
                [ entry "type" (JS "knn_vector");
                  entry "dimension" (JInt 1536);
                  entry "method" (JDict
                    [ entry "name" (JS "hnsw");
                      entry "engine" (JS "faiss");
                      entry "parameters" (JDict
                        [ entry "ef_construction" (JInt 512);
                          entry "m" (JInt 16) ]) ]) ]);
              entry "text" (JDict [ entry "type" (JS "text") ]);
              entry "metadata" (JDict [ entry "type" (JS "text") ]) ]) ]) ].

(** lines 109-158: the search index, created unless it exists. *)
Definition create_index (w : World) (index_name : str) : M unit :=
  try_except
    (print ("Creating OpenSearch index: " +++ index_name) ;;
     present <- invoke (IndicesExists index_name) (indices_exists w) ;;
     if present : bool
     then print ("Index " +++ index_name
                 +++ " already exists, skipping creation")
     else
       response <- invoke (IndicesCreate index_name index_body)
                          (indices_create w) ;;
       print ("OpenSearch index created: " +++ index_name) ;;
       print ("Index response: " +++ response))
    [ (is_Exception,
       fun e =>
         print ("Error creating OpenSearch index: " +++ msg e) ;;
         return_ (respond 500
           (error_body ("Failed to create OpenSearch index: " +++ msg e)))) ].

(** lines 167-172 *)
Definition knowledge_base_configuration : json :=
  JDict
    [ entry "type" (JS "VECTOR");
      entry "vectorKnowledgeBaseConfiguration" (JDict
        [ entry "embeddingModelArn" (JS
            "arn:aws:bedrock:us-east-1::foundation-model/amazon.titan-embed-text-v1") ]) ].

(** lines 173-184 *)
Definition storage_configuration (cfg : config) (client_id : str) : json :=
  JDict
    [ entry "type" (JS "OPENSEARCH_SERVERLESS");
      entry "opensearchServerlessConfiguration" (JDict
        [ entry "collectionArn" (JStr (opensearch_collection_arn cfg));
          entry "vectorIndexName" (JStr (client_id +++ "_index"));
          entry "fieldMapping" (JDict
            [ entry "vectorField" (JS "vector");
              entry "textField" (JS "text");
              entry "metadataField" (JS "metadata") ]) ]) ].

(** lines 163-185: the [create_knowledge_base] call. *)
Definition kb_request (cfg : config) (client_id kb_name : str) : call :=
  CreateKnowledgeBase kb_name
    ("Knowledge Base para cliente " +++ client_id
     +++ " - RAG Multi-tenant Demo")
    (bedrock_kb_role_arn cfg)
    knowledge_base_configuration
    (storage_configuration cfg client_id).

(** lines 161-196: the knowledge base; its value is [kb_id]. *)
Definition create_kb (w : World) (cfg : config) (client_id kb_name : str)
    : M str :=
  try_except
    (print ("Creating Knowledge Base: " +++ kb_name) ;;
     kb_id <- invoke (kb_request cfg client_id kb_name)
                     (create_knowledge_base w) ;;
     print ("Knowledge Base creada: " +++ kb_id) ;;
     pure kb_id)
    [ (is_ClientError,
       fun e =>
         print ("Error creando Knowledge Base: " +++ msg e) ;;
         return_ (respond 500
           (error_body ("Failed to create Knowledge Base: " +++ msg e)))) ].

(** lines 204-210 *)
Definition data_source_configuration (cfg : config) (folder_key : str)
    : json :=
  JDict
    [ entry "type" (JS "S3");
      entry "s3Configuration" (JDict
        [ entry "bucketArn" (JStr (s3_bucket_arn cfg));
          entry "inclusionPrefixes" (JList [JStr folder_key]) ]) ].

(** lines 200-211: the [create_data_source] call. *)
Definition ds_request (cfg : config) (client_id folder_key kb_id : str)
    : call :=
  CreateDataSource kb_id
    ("s3-datasource-" +++ client_id)
    ("S3 data source para " +++ client_id +++ " - carpeta " +++ folder_key)
    (data_source_configuration cfg folder_key).

(** lines 218-222: the clean-up of the knowledge base. *)
Definition cleanup_kb (w : World) (kb_id : str) : M unit :=
  try_except
    (print ("Cleaning up Knowledge Base: " +++ kb_id) ;;
     invoke (DeleteKnowledgeBase kb_id) (delete_knowledge_base w))
    [ (is_Exception,
       fun cleanup_error =>
         print ("Failed to cleanup KB: " +++ msg cleanup_error)) ].

(** lines 198-228: the data source, and the clean-up when it cannot be
    created; its value is [data_source_id]. *)
Definition create_ds (w : World) (cfg : config)
    (client_id folder_key kb_id : str) : M str :=
  try_except
    (print ("Creating Data Source for S3 prefix: " +++ folder_key) ;;
     data_source_id <- invoke (ds_request cfg client_id folder_key kb_id)
                              (create_data_source w) ;;
     print ("Data Source creada: " +++ data_source_id) ;;
     pure data_source_id)
    [ (is_ClientError,
       fun e =>
         print ("Error creando Data Source: " +++ msg e) ;;
         cleanup_kb w kb_id ;;
         return_ (respond 500
           (error_body ("Failed to create Data Source: " +++ msg e)))) ].

(** lines 231-251 *)
Definition success_response (cfg : config)
    (client_id folder_key timestamp kb_id data_source_id : str) : json :=
  let s3_console_url :=
    "https://s3.console.aws.amazon.com/s3/buckets/" +++ s3_bucket_name cfg
    +++ "?region=" +++ region cfg +++ "&prefix=" +++ folder_key in
  JDict
    [ entry "success" (JBool true);
      entry "message"
        (JStr ("Knowledge Base successfully created for client "
               +++ client_id));
      entry "kb_id" (JStr kb_id);
      entry "data_source_id" (JStr data_source_id);
      entry "client_id" (JStr client_id);
      entry "s3_bucket" (JStr (s3_bucket_name cfg));
      entry "s3_folder" (JStr folder_key);
      entry "s3_console_url" (JStr s3_console_url);
      entry "opensearch_index" (JStr (client_id +++ "_index"));
      entry "status" (JS "created");
      entry "timestamp" (JStr timestamp);
      entry "next_steps" (JList
        [ JStr ("1. Upload documents to: s3://" +++ s3_bucket_name cfg
                +++ "/" +++ folder_key);
          JStr ("2. Or use AWS Console: " +++ s3_console_url);
          JS "3. Use POST /admin/sync-kb with kb_id to process documents";
          JS "4. Query your knowledge base with POST /query" ]) ].

(** lines 160-260: the knowledge base, its data source, and the answer. *)
Definition register (w : World) (cfg : config)
    (client_id folder_key timestamp : str) : M unit :=
  let kb_name := "kb-" +++ client_id in
  kb_id <- create_kb w cfg client_id kb_name ;;
  data_source_id <- create_ds w cfg client_id folder_key kb_id ;;
  let success :=
    success_response cfg client_id folder_key timestamp kb_id data_source_id in
  print "Knowledge Base creation completed successfully!" ;;
  print ("Response: " +++ json_dumps_indent 2 success) ;;
  return_ (respond 200 success).

(** lines 87-260: the steps after the duplicate check. *)
Definition provision (w : World) (cfg : config) (client_id : str) : M unit :=
  let folder_key := client_id +++ "/" in
  let timestamp := now w in
  let readme_content := "# Knowledge Base para " +++ client_id in
  create_folder w cfg folder_key readme_content ;;
  let index_name := client_id +++ "_index" in
  create_index w index_name ;;
  register w cfg client_id folder_key timestamp.

(** lines 39-260: the configuration, the clients, and the five steps. *)
Definition workflow (w : World) (client_id : str) : M unit :=
  cfg <- read_config w ;;
  print ("Creating Knowledge Base for client: " +++ client_id) ;;
  print ("Region: " +++ region cfg) ;;
  print ("S3 Bucket: " +++ s3_bucket_name cfg) ;;
  let host :=
    replace (replace (opensearch_collection_endpoint cfg) "https://" "")
            "http://" "" in
  connect (region cfg) host (clients w) ;;
  check_existing w client_id ;;
  provision w cfg client_id.

(** lines 17-18: [json.loads(event['body'])['client_id'].lower().strip()] *)
Definition read_client_id (U : UnicodeData) (event : Event) : M str :=
  raw <- event_getitem_body event ;;
  body <- json_loads raw ;;
  field <- getitem body "client_id" ;;
  lowered <- method_lower U field ;;
  pure (strip U lowered).

(** lines 20-36 *)
Definition validate (U : UnicodeData) (client_id : str) : M unit :=
  when (match client_id with [] => true | _ => false end
        || (List.length client_id <? 2)%nat)
    (return_ (respond 400
       (error_body "client_id must be at least 2 characters long"))) ;;
  when (negb (isalnum U (replace (replace client_id "-" "") "_" "")))
    (return_ (respond 400
       (error_body
          "client_id can only contain letters, numbers, hyphens and underscores"))).

(** lines 262-284: the [except] clauses of the outer [try]. *)
Definition outer_clauses : list ((exn -> bool) * (exn -> M unit)) :=
  [ (is_JSONDecodeError,
     fun e =>
       print ("JSON parse error: " +++ msg e) ;;
       return_ (respond 400 (error_body "Invalid JSON in request body")));
    (is_KeyError,
     fun e =>
       print ("Missing required field: " +++ msg e) ;;
       return_ (respond 400
         (error_body ("Missing required field: " +++ msg e))));
    (is_Exception,
     fun e =>
       print ("Error: " +++ msg e) ;;
       return_ (respond 500
         (error_body ("Internal server error: " +++ msg e)))) ].

(** [def lambda_handler(event, context)] *)
Definition lambda_handler (U : UnicodeData) (event : Event) (w : World)
    : M unit :=
  try_except
    (client_id <- read_client_id U event ;;
     validate U client_id ;;
     workflow w client_id)
    outer_clauses.

(* ===================================================================== *)
(** ** functions/list_kb.py                                               *)
(* ===================================================================== *)

Definition list_kb_handler : response :=
  {| statusCode := 200;
     headers :=
       [ header "Content-Type" "application/json";
         header "Access-Control-Allow-Origin" "*";
         header "Access-Control-Allow-Methods" "GET, POST, PUT, DELETE, OPTIONS";
         header "Access-Control-Allow-Headers" "Content-Type, Authorization" ];
     body := json_dumps (JDict [ entry "ok" (JBool true);
                                 entry "knowledge_bases" (JS "list_kb") ]) |}.

(* ===================================================================== *)
(** ** The vocabulary of the properties                                   *)
(* ===================================================================== *)

(** The tenant identifier the handler works with: [s.lower().strip()]. *)
Definition normalize (U : UnicodeData) (s : str) : str := strip U (lower U s).

(** The request body is a JSON object whose ["client_id"] is the string [s]. *)
Definition requests (event : Event) (s : str) : Prop :=
  exists entries,
    event_body event = Some (BodyJson (JDict entries))
    /\ dict_get entries "client_id" = Some (JStr s).

(** The two tests of lines 20 and 29 let the identifier through. *)
Definition well_formed (U : UnicodeData) (client_id : str) : bool :=
  (2 <=? List.length client_id)%nat
  && isalnum U (replace (replace client_id "-" "") "_" "").

(** The character set [a-z0-9_-] of the specification. *)
Definition spec_charset (c : N) : bool :=
  between 97 122 c || between 48 57 c || (c =? 95)%N || (c =? 45)%N.

(** The code points U+D800..U+DFFF, the only ones [str.encode('utf-8')]
    refuses. *)
Definition is_surrogate (c : N) : bool := between 55296 57343 c.

(** The variables of lines 39-44, in the order they are read. *)
Definition required_variables : list str :=
  [ of_string "OPENSEARCH_COLLECTION_ARN";
    of_string "OPENSEARCH_COLLECTION_ENDPOINT";
    of_string "S3_BUCKET_NAME";
    of_string "S3_BUCKET_ARN";
    of_string "BEDROCK_KB_ROLE_ARN";
    of_string "REGION" ].

Definition is_unset (env : list (str * str)) (k : str) : bool :=
  match env_lookup env k with None => true | Some _ => false end.

(** The first required variable the environment does not define. *)
Definition first_missing (env : list (str * str)) : option str :=
  find (is_unset env) required_variables.

(** The lines printed at lines 46-48. *)
Definition startup_lines (cfg : config) (client_id : str) : list effect :=
  [ Print ("Creating Knowledge Base for client: " +++ client_id);
    Print ("Region: " +++ region cfg);
    Print ("S3 Bucket: " +++ s3_bucket_name cfg) ].

(** The effects of lines 46-70. *)
Definition startup (cfg : config) (client_id : str) : list effect :=
  [ Print ("Creating Knowledge Base for client: " +++ client_id);
    Print ("Region: " +++ region cfg);
    Print ("S3 Bucket: " +++ s3_bucket_name cfg);
    Connect (region cfg)
      (replace (replace (opensearch_collection_endpoint cfg) "https://" "")
               "http://" "") ].

(** Step 1 lets the request through: the listing has no record named
    [kb-<client_id>], or the listing call raises a [ClientError]. *)
Definition no_conflict (w : World) (client_id : str) : Prop :=
  match list_knowledge_bases w with
  | Ok l => forall kb, In kb l -> name kb <> "kb-" +++ client_id
  | Fails e => is_ClientError e = true
  end.

(** The world [w] with another reply of the listing call. *)
Definition with_listing (r : reply (list kb_summary)) (w : World) : World :=
  {| environ := environ w;
     now := now w;
     clients := clients w;
     list_knowledge_bases := r;
     put_object := put_object w;
     indices_exists := indices_exists w;
     indices_create := indices_create w;
     create_knowledge_base := create_knowledge_base w;
     create_data_source := create_data_source w;
     delete_knowledge_base := delete_knowledge_base w |}.

(** Step 3 completes: the index exists, or it does not and is created. *)
Definition index_ready (w : World) : Prop :=
  indices_exists w = Ok true
  \/ (indices_exists w = Ok false /\ exists r, indices_create w = Ok r).

(** What the clean-up prints once the delete call has replied. *)
Definition cleanup_log (r : reply unit) : list effect :=
  match r with
  | Ok _ => []
  | Fails e => [Print ("Failed to cleanup KB: " +++ msg e)]
  end.

Definition is_indices_create (c : call) : bool :=
  match c with IndicesCreate _ _ => true | _ => false end.

Definition is_delete_knowledge_base (c : call) : bool :=
  match c with DeleteKnowledgeBase _ => true | _ => false end.

(** [v[k]] when [v] is a dict that has the key. *)
Definition json_field (v : json) (k : str) : option json :=
  match v with JDict entries => dict_get entries k | _ => None end.

(** The statement does not end normally: it returns or raises. *)
Definition abrupt {A} (m : M A) : Prop :=
  match fst m with Normal _ => False | _ => True end.

(** The statement ends by a [return]. *)
Definition answers {A} (m : M A) : Prop :=
  exists r t, m = (Return r, t).

(** What a finished invocation returned, if it returned. *)
Definition returned (m : M unit) : option response :=
  match fst m with Return r => Some r | _ => None end.

(* ===================================================================== *)
(** ** Sample data                                                        *)
(* ===================================================================== *)

(** The rows U+0080..U+00FF of the Unicode character database.  Beyond
    U+00FF this table leaves every code point unclassified; the samples
    below stay within it. *)
Definition latin1 : UnicodeData :=
  {| ucd_isalnum := fun c =>
       (c =? 170)%N || (c =? 178)%N || (c =? 179)%N || (c =? 181)%N
       || (c =? 185)%N || (c =? 186)%N || between 188 190 c
       || between 192 214 c || between 216 246 c || between 248 255 c;
     ucd_isspace := fun c => (c =? 133)%N || (c =? 160)%N;
     ucd_lower := fun _ c _ =>
       if between 192 214 c || between 216 222 c then [(c + 32)%N] else [c] |}.

Definition sample_environ : list (str * str) :=
  [ header "OPENSEARCH_COLLECTION_ARN" "arn:aws:aoss:us-east-1:1:collection/c1";
    header "OPENSEARCH_COLLECTION_ENDPOINT" "https://c1.us-east-1.aoss.amazonaws.com";
    header "S3_BUCKET_NAME" "rag-uno-docs";
    header "S3_BUCKET_ARN" "arn:aws:s3:::rag-uno-docs";
    header "BEDROCK_KB_ROLE_ARN" "arn:aws:iam::1:role/kb";
    header "REGION" "us-east-1" ].

Definition sample_config : config :=
  {| opensearch_collection_arn := "arn:aws:aoss:us-east-1:1:collection/c1";
     opensearch_collection_endpoint := "https://c1.us-east-1.aoss.amazonaws.com";
     s3_bucket_name := "rag-uno-docs";
     s3_bucket_arn := "arn:aws:s3:::rag-uno-docs";
     bedrock_kb_role_arn := "arn:aws:iam::1:role/kb";
     region := "us-east-1" |}.

(** A world with the sample clock and clients, in which the storage write,
    the index creation and the knowledge-base creation succeed. *)
Definition world_of (env : list (str * str))
    (listing : reply (list kb_summary)) (index_exists : reply bool)
    (data_source : reply str) (deletion : reply unit) : World :=
  {| environ := env;
     now := "2025-01-01 00:00:00 UTC";
     clients := Ok tt;
     list_knowledge_bases := listing;
     put_object := Ok tt;
     indices_exists := index_exists;
     indices_create := Ok (of_string "{'acknowledged': True}");
     create_knowledge_base := Ok (of_string "KB12345678");
     create_data_source := data_source;
     delete_knowledge_base := deletion |}.

(** A world in which every call succeeds and no knowledge base exists. *)
Definition sample_world : World :=
  world_of sample_environ (Ok []) (Ok false) (Ok (of_string "DS12345678"))
    (Ok tt).

(** botocore's [EndpointConnectionError], which is not a [ClientError]. *)
Definition unreachable : exn :=
  Exn OtherException "Could not connect to the endpoint URL".

(** A [ClientError] of the service. *)
Definition denied : exn :=
  Exn ClientError "An error occurred (AccessDeniedException)".

Definition acme_kb : kb_summary :=
  {| name := "kb-acme-01"; knowledgeBaseId := "KBOLD00001" |}.

(** The text [caf\u00e9]: c, a, f and e with acute accent, U+00E9. *)
Definition cafe : str := [99; 97; 102; 233]%N.

(** The sample world without [REGION] in the environment. *)
Definition world_without_region : World :=
  world_of (removelast sample_environ) (Ok []) (Ok false)
    (Ok (of_string "DS12345678")) (Ok tt).

(** The sample world where the listing call cannot connect. *)
Definition world_listing_unreachable : World :=
  world_of sample_environ (Fails unreachable) (Ok false)
    (Ok (of_string "DS12345678")) (Ok tt).

(** The sample world where the listing call is denied by the service. *)
Definition world_listing_denied : World :=
  world_of sample_environ (Fails denied) (Ok false)
    (Ok (of_string "DS12345678")) (Ok tt).

(** The sample world where [kb-acme-01] is registered. *)
Definition world_with_acme : World :=
  world_of sample_environ (Ok [acme_kb]) (Ok false)
    (Ok (of_string "DS12345678")) (Ok tt).

(** The sample world where the index exists. *)
Definition world_index_exists : World :=
  world_of sample_environ (Ok []) (Ok true) (Ok (of_string "DS12345678"))
    (Ok tt).

(** The sample world where the data-source call cannot connect. *)
Definition world_ds_unreachable : World :=
  world_of sample_environ (Ok []) (Ok false) (Fails unreachable) (Ok tt).

(** The sample world where the data-source call is denied by the service
    and the delete call cannot connect. *)
Definition world_ds_denied : World :=
  world_of sample_environ (Ok []) (Ok false) (Fails denied)
    (Fails unreachable).

(** The request with body [{client_id: s}]. *)
Definition request (s : str) : Event :=
  {| event_body := Some (BodyJson (JDict [entry "client_id" (JStr s)])) |}.

(* ===================================================================== *)
(** ** The endings of an invocation                                       *)
(* ===================================================================== *)

(** The answer of the outer clauses (lines 262-284) to an exception that
    reaches them, and the line they print. *)
Definition outer_answer (e : exn) : response :=
  match cls e with
  | JSONDecodeError => respond 400 (error_body "Invalid JSON in request body")
  | KeyError =>
      respond 400 (error_body ("Missing required field: " +++ msg e))
  | _ => respond 500 (error_body ("Internal server error: " +++ msg e))
  end.

Definition outer_line (e : exn) : str :=
  match cls e with
  | JSONDecodeError => "JSON parse error: " +++ msg e
  | KeyError => "Missing required field: " +++ msg e
  | _ => "Error: " +++ msg e
  end.

(** The answer to an exception raised in a step guarded by
    [except ClientError]: the 500 answer of the step, whose message begins
    with [text], for a [ClientError]; the answer of the outer clauses for
    any other exception. *)
Definition guarded_answer (text : str) (e : exn) : response :=
  if is_ClientError e
  then respond 500 (error_body (text +++ msg e))
  else outer_answer e.

(** The calls of step 3: [indices.exists], and [indices.create] when the
    index is reported absent. *)
Definition index_calls (w : World) (index_name : str) : list call :=
  IndicesExists index_name
  :: match indices_exists w with
     | Ok false => [IndicesCreate index_name index_body]
     | _ => []
     end.

(** The [put_object] call of step 2. *)
Definition folder_request (cfg : config) (client_id : str) : call :=
  PutObject (s3_bucket_name cfg) ((client_id +++ "/") +++ "README.md")
    ("# Knowledge Base para " +++ client_id) "text/markdown".

(** An invocation ended with the answer [r], having made the calls [cs]. *)
Definition ends_with (m : M unit) (r : response) (cs : list call) : Prop :=
  returned m = Some r /\ calls_of (snd m) = cs.

(** The identifier is read and accepted, the configuration is complete and
    the clients are built: the invocation reaches step 1. *)
Definition ready (U : UnicodeData) (event : Event) (w : World) (s : str)
    (cfg : config) : Prop :=
  requests event s
  /\ well_formed U (normalize U s) = true
  /\ read_config w = pure cfg
  /\ clients w = Ok tt.

(** The endings of steps 4 and 5. *)
Inductive register_run (w : World) (cfg : config) (client_id : str)
    : response -> list call -> Prop :=
| run_kb_failed (e : exn) :
    create_knowledge_base w = Fails e ->
    register_run w cfg client_id
      (guarded_answer "Failed to create Knowledge Base: " e)
      [kb_request cfg client_id ("kb-" +++ client_id)]
| run_ds_failed (kb_id : str) (e : exn) :
    create_knowledge_base w = Ok kb_id ->
    create_data_source w = Fails e ->
    register_run w cfg client_id
      (guarded_answer "Failed to create Data Source: " e)
      ([ kb_request cfg client_id ("kb-" +++ client_id);
         ds_request cfg client_id (client_id +++ "/") kb_id ]
       ++ if is_ClientError e then [DeleteKnowledgeBase kb_id] else [])
| run_created (kb_id ds_id : str) :
    create_knowledge_base w = Ok kb_id ->
    create_data_source w = Ok ds_id ->
    register_run w cfg client_id
      (respond 200
         (success_response cfg client_id (client_id +++ "/") (now w)
            kb_id ds_id))
      [ kb_request cfg client_id ("kb-" +++ client_id);
        ds_request cfg client_id (client_id +++ "/") kb_id ].

(** The endings of steps 2 to 5. *)
Inductive provision_run (w : World) (cfg : config) (client_id : str)
    : response -> list call -> Prop :=
| run_storage_failed (e : exn) :
    put_object w = Fails e ->
    provision_run w cfg client_id
      (guarded_answer "Failed to create S3 folder: " e)
      [folder_request cfg client_id]
| run_index_failed (e : exn) :
    put_object w = Ok tt ->
    indices_exists w = Fails e
    \/ (indices_exists w = Ok false /\ indices_create w = Fails e) ->
    provision_run w cfg client_id
      (respond 500
         (error_body ("Failed to create OpenSearch index: " +++ msg e)))
      (folder_request cfg client_id
       :: index_calls w (client_id +++ "_index"))
| run_registered (r : response) (cs : list call) :
    put_object w = Ok tt ->
    index_ready w ->
    register_run w cfg client_id r cs ->
    provision_run w cfg client_id r
      (folder_request cfg client_id
       :: index_calls w (client_id +++ "_index") ++ cs).

(** The endings of an invocation: which answer, after which calls, under
    which conditions on the event and the world. *)
Inductive run (U : UnicodeData) (event : Event) (w : World)
    : response -> list call -> Prop :=
| run_unreadable (e : exn) :
    read_client_id U event = raise e ->
    run U event w (outer_answer e) []
| run_too_short (s : str) :
    requests event s ->
    (List.length (normalize U s) < 2)%nat ->
    run U event w
      (respond 400
         (error_body "client_id must be at least 2 characters long")) []
| run_bad_characters (s : str) :
    requests event s ->
    (2 <= List.length (normalize U s))%nat ->
    isalnum U (replace (replace (normalize U s) "-" "") "_" "") = false ->
    run U event w
      (respond 400
         (error_body
            "client_id can only contain letters, numbers, hyphens and underscores"))
      []
| run_no_config (s k : str) :
    requests event s ->
    well_formed U (normalize U s) = true ->
    first_missing (environ w) = Some k ->
    run U event w (outer_answer (key_error k)) []
| run_no_clients (s : str) (cfg : config) (e : exn) :
    requests event s ->
    well_formed U (normalize U s) = true ->
    read_config w = pure cfg ->
    clients w = Fails e ->
    run U event w (outer_answer e) []
| run_conflict (s : str) (cfg : config) (l : list kb_summary)
    (kb : kb_summary) :
    ready U event w s cfg ->
    list_knowledge_bases w = Ok l ->
    find (fun x => str_eqb (name x) ("kb-" +++ normalize U s)) l = Some kb ->
    run U event w (conflict_response (normalize U s) kb)
      [ListKnowledgeBases]
| run_listing_failed (s : str) (cfg : config) (e : exn) :
    ready U event w s cfg ->
    list_knowledge_bases w = Fails e ->
    is_ClientError e = false ->
    run U event w (outer_answer e) [ListKnowledgeBases]
| run_provisioned (s : str) (cfg : config) (r : response)
    (cs : list call) :
    ready U event w s cfg ->
    no_conflict w (normalize U s) ->
    provision_run w cfg (normalize U s) r cs ->
    run U event w r (ListKnowledgeBases :: cs).

(** The place of a call in the sequence of the steps. *)
Definition step_rank (c : call) : nat :=
  match c with
  | ListKnowledgeBases => 1
  | PutObject _ _ _ _ => 2
  | IndicesExists _ => 3
  | IndicesCreate _ _ => 4
  | CreateKnowledgeBase _ _ _ _ _ => 5
  | CreateDataSource _ _ _ _ => 6
  | DeleteKnowledgeBase _ => 7
  end.

(** The ranks grow strictly along the list. *)
Fixpoint increasing (ranks : list nat) : Prop :=
  match ranks with
  | [] => True
  | a :: rest =>
      match rest with
      | [] => True
      | b :: _ => (a < b)%nat /\ increasing rest
      end
  end.

(** The call [c] of an invocation for [client_id] under [cfg] bears the
    names derived from [client_id], and touches no knowledge base but the
    one this invocation created. *)
Definition scoped (w : World) (cfg : config) (client_id : str) (c : call)
    : Prop :=
  match c with
  | ListKnowledgeBases => True
  | PutObject bucket key _ _ =>
      bucket = s3_bucket_name cfg
      /\ key = (client_id +++ "/") +++ "README.md"
  | IndicesExists index => index = client_id +++ "_index"
  | IndicesCreate index body =>
      index = client_id +++ "_index" /\ body = index_body
  | CreateKnowledgeBase kb_name _ role _ storage =>
      kb_name = "kb-" +++ client_id
      /\ role = bedrock_kb_role_arn cfg
      /\ storage = storage_configuration cfg client_id
  | CreateDataSource kb_id _ _ source =>
      create_knowledge_base w = Ok kb_id
      /\ source = data_source_configuration cfg (client_id +++ "/")
  | DeleteKnowledgeBase kb_id => create_knowledge_base w = Ok kb_id
  end.

(** The form of an answer: the CORS headers, and a body that is the JSON
    text of a dict which, under status 200, has [success] true and no
    [error] and, under status 400, 409 or 500, has an [error] text and no
    [success]. *)
Definition answer_shape (r : response) : Prop :=
  headers r = cors_headers
  /\ exists v,
       body r = json_dumps v
       /\ ((statusCode r = 200%Z
            /\ json_field v "success" = Some (JBool true)
            /\ json_field v "error" = None)
           \/ (In (statusCode r) [400%Z; 409%Z; 500%Z]
               /\ (exists text, json_field v "error" = Some (JStr text))
               /\ json_field v "success" = None)).

(** The characters of ASCII. *)
Definition is_ascii (c : N) : bool := (c <? 128)%N.

(* ===================================================================== *)
(** ** py_api/py_api_stack.py: the environment of the functions          *)
(* ===================================================================== *)

(** The attributes of the resources of the stack that lines 218-225 read;
    they are resolved when the stack is deployed. *)
Record stack_attributes := {
  attr_collection_endpoint : str;
  attr_arn : str;
  bucket_name : str;
  bucket_arn : str;
  role_arn : str;
  stack_region : str
}.

(** lines 218-225 *)
Definition common_env (a : stack_attributes) : list (str * str) :=
  [ (of_string "OPENSEARCH_COLLECTION_ENDPOINT", attr_collection_endpoint a);
    (of_string "OPENSEARCH_COLLECTION_ARN", attr_arn a);
    (of_string "S3_BUCKET_NAME", bucket_name a);
    (of_string "S3_BUCKET_ARN", bucket_arn a);
    (of_string "BEDROCK_KB_ROLE_ARN", role_arn a);
    (of_string "REGION", stack_region a) ].

(** The configuration the handler of create.py reads in a function whose
    environment the stack has set. *)
Definition deployed_config (a : stack_attributes) : config :=
  {| opensearch_collection_arn := attr_arn a;
     opensearch_collection_endpoint := attr_collection_endpoint a;
     s3_bucket_name := bucket_name a;
     s3_bucket_arn := bucket_arn a;
     bedrock_kb_role_arn := role_arn a;
     region := stack_region a |}.

Definition sample_attributes : stack_attributes :=
  {| attr_collection_endpoint := "https://c1.us-east-1.aoss.amazonaws.com";
     attr_arn := "arn:aws:aoss:us-east-1:1:collection/c1";
     bucket_name := "rag-uno-rag-documents-1";
     bucket_arn := "arn:aws:s3:::rag-uno-rag-documents-1";
     role_arn := "arn:aws:iam::1:role/rag-uno-BedrockKBExecutionRole";
     stack_region := "us-east-1" |}.

(** The world [w] with another reply of one call. *)
Definition with_clients (r : reply unit) (w : World) : World :=
  {| environ := environ w;
     now := now w;
     clients := r;
     list_knowledge_bases := list_knowledge_bases w;
     put_object := put_object w;
     indices_exists := indices_exists w;
     indices_create := indices_create w;
     create_knowledge_base := create_knowledge_base w;
     create_data_source := create_data_source w;
     delete_knowledge_base := delete_knowledge_base w |}.

Definition with_put_object (r : reply unit) (w : World) : World :=
  {| environ := environ w;
     now := now w;
     clients := clients w;
     list_knowledge_bases := list_knowledge_bases w;
     put_object := r;
     indices_exists := indices_exists w;
     indices_create := indices_create w;
     create_knowledge_base := create_knowledge_base w;
     create_data_source := create_data_source w;
     delete_knowledge_base := delete_knowledge_base w |}.

Definition with_indices_exists (r : reply bool) (w : World) : World :=
  {| environ := environ w;
     now := now w;
     clients := clients w;
     list_knowledge_bases := list_knowledge_bases w;
     put_object := put_object w;
     indices_exists := r;
     indices_create := indices_create w;
     create_knowledge_base := create_knowledge_base w;
     create_data_source := create_data_source w;
     delete_knowledge_base := delete_knowledge_base w |}.

Definition with_create_knowledge_base (r : reply str) (w : World) : World :=
  {| environ := environ w;
     now := now w;
     clients := clients w;
     list_knowledge_bases := list_knowledge_bases w;
     put_object := put_object w;
     indices_exists := indices_exists w;
     indices_create := indices_create w;
     create_knowledge_base := r;
     create_data_source := create_data_source w;
     delete_knowledge_base := delete_knowledge_base w |}.

Definition with_environ (env : list (str * str)) (w : World) : World :=
  {| environ := env;
     now := now w;
     clients := clients w;
     list_knowledge_bases := list_knowledge_bases w;
     put_object := put_object w;
     indices_exists := indices_exists w;
     indices_create := indices_create w;
     create_knowledge_base := create_knowledge_base w;
     create_data_source := create_data_source w;
     delete_knowledge_base := delete_knowledge_base w |}.

(** opensearch-py's [ConnectionTimeout], which is not a [ClientError]. *)
Definition timed_out : exn :=
  Exn OtherException "ConnectionTimeout caused by - ReadTimeoutError".

Unset Implicit Arguments.

(* ===================================================================== *)
(** ** Strings                                                            *)
(* ===================================================================== *)

Lemma str_eqb_eq (a b : str) : str_eqb a b = true <-> a = b.
Proof.
  unfold str_eqb. destruct (list_eq_dec N.eq_dec a b); split; congruence.
Qed.

Lemma str_eqb_refl (a : str) : str_eqb a a = true.
Proof. now apply str_eqb_eq. Qed.

Lemma str_eqb_neq (a b : str) : a <> b -> str_eqb a b = false.
Proof.
  intro H. destruct (str_eqb a b) eqn:E; [ | reflexivity ].
  apply str_eqb_eq in E. contradiction.
Qed.

(** Replacing a one-character string by the empty string filters the
    character out. *)
Lemma replace_char_empty (d : N) (s : str) :
  replace s [d] [] = filter (fun c => negb (c =? d)%N) s.
Proof.
  unfold replace. induction s as [ | c rest IH ]; [ reflexivity | ].
  cbn [replace_scan startswith filter List.length Nat.sub app].
  rewrite andb_true_r, N.eqb_sym.
  destruct (c =? d)%N; cbn [negb]; now rewrite IH.
Qed.

Lemma isalnum_false_intro (U : UnicodeData) (s : str) (c : N) :
  In c s -> isalnum_cp U c = false -> isalnum U s = false.
Proof.
  intros Hin Hc. destruct s as [ | a s' ]; [ reflexivity | ].
  unfold isalnum. apply not_true_is_false. intro Hall.
  rewrite forallb_forall in Hall. specialize (Hall c Hin). congruence.
Qed.

(** A character that is neither alphanumeric, nor the hyphen, nor the
    underscore fails the test of line 29. *)
Lemma charset_test_fails (U : UnicodeData) (s : str) (c : N) :
  In c s -> c <> 45%N -> c <> 95%N -> isalnum_cp U c = false ->
  isalnum U (replace (replace s "-" "") "_" "") = false.
Proof.
  intros Hin H45 H95 Hc.
  change (of_string "-") with [45%N]. change (of_string "_") with [95%N].
  change (of_string "") with (@nil N).
  rewrite !replace_char_empty.
  apply isalnum_false_intro with c; [ | exact Hc ].
  apply filter_In; split.
  - apply filter_In; split; [ exact Hin | ].
    apply negb_true_iff, N.eqb_neq; exact H45.
  - apply negb_true_iff, N.eqb_neq; exact H95.
Qed.

(** Every character of an identifier that passes line 29 is alphanumeric,
    a hyphen or an underscore. *)
Lemma charset_test_passes (U : UnicodeData) (s : str) (c : N) :
  isalnum U (replace (replace s "-" "") "_" "") = true ->
  In c s -> c = 45%N \/ c = 95%N \/ isalnum_cp U c = true.
Proof.
  change (of_string "-") with [45%N]. change (of_string "_") with [95%N].
  change (of_string "") with (@nil N).
  rewrite !replace_char_empty. intros Hal Hin.
  destruct (N.eq_dec c 45) as [-> | H45]; [ now left | ].
  destruct (N.eq_dec c 95) as [-> | H95]; [ now right; left | ].
  right; right.
  assert (Hf : In c (filter (fun x => negb (x =? 95)%N)
                       (filter (fun x => negb (x =? 45)%N) s))).
  { apply filter_In; split.
    - apply filter_In; split; [ exact Hin | ].
      apply negb_true_iff, N.eqb_neq; exact H45.
    - apply negb_true_iff, N.eqb_neq; exact H95. }
  unfold isalnum in Hal.
  destruct (filter (fun x => negb (x =? 95)%N)
              (filter (fun x => negb (x =? 45)%N) s)) as [ | a rest ];
    [ destruct Hf | ].
  rewrite forallb_forall in Hal. apply Hal, Hf.
Qed.

(** In a character database where no surrogate is alphanumeric (as in
    Unicode, where they are of category Cs), an accepted identifier holds
    no surrogate: its UTF-8 encoding exists. *)
Lemma accepted_identifier_encodable (U : UnicodeData) (client_id : str) :
  (forall c, is_surrogate c = true -> ucd_isalnum U c = false) ->
  well_formed U client_id = true ->
  existsb is_surrogate client_id = false.
Proof.
  intros Hlaw Hwf. apply andb_true_iff in Hwf as [_ Hal].
  apply not_true_is_false. intro Hex.
  apply existsb_exists in Hex as (c & Hin & Hs).
  pose proof Hs as Hs'. unfold is_surrogate, between in Hs'.
  apply andb_true_iff in Hs' as [Hlo _]. apply N.leb_le in Hlo.
  destruct (charset_test_passes U client_id c Hal Hin) as [-> | [-> | Hc]];
    try (cbv in Hlo; now destruct Hlo).
  unfold isalnum_cp in Hc.
  assert (Hge : (c <? 128)%N = false) by (apply N.ltb_ge; lia).
  rewrite Hge, (Hlaw c Hs) in Hc. discriminate.
Qed.

(** Checks of the string and JSON functions on values computed by
    CPython. *)
Example lower_strip_acme (U : UnicodeData) :
  strip U (lower U "  Acme-01 ") = "acme-01".
Proof. reflexivity. Qed.

Example replace_scheme :
  replace (replace "https://c1.aoss.amazonaws.com" "https://" "") "http://" ""
  = "c1.aoss.amazonaws.com".
Proof. reflexivity. Qed.

Example replace_hyphens : replace "a--b-c" "-" "" = "abc".
Proof. reflexivity. Qed.

Example isalnum_cafe : isalnum latin1 cafe = true.
Proof. reflexivity. Qed.

Example isalnum_hyphens (U : UnicodeData) :
  isalnum U (replace (replace "-_" "-" "") "_" "") = false.
Proof. reflexivity. Qed.

Example json_dumps_list :
  json_dumps (JList [JInt 1; JInt (-20); JBool true; JNull; JList []])
  = "[1, -20, true, null, []]".
Proof. reflexivity. Qed.

Example json_dumps_error :
  json_dumps (error_body "no")
  = "{" +++ dquote +++ "error" +++ dquote +++ ": " +++ dquote +++ "no"
    +++ dquote +++ "}".
Proof. reflexivity. Qed.

Example json_dumps_escapes :
  json_dumps (JStr [233; 10; 128512]%N)
  = dquote +++ "\u00e9\n\ud83d\ude00" +++ dquote.
Proof. reflexivity. Qed.

(* ===================================================================== *)
(** ** Statements                                                         *)
(* ===================================================================== *)

Lemma after_nil {A} (m : M A) : after [] m = m.
Proof. now destruct m. Qed.

Lemma after_after {A} (t t' : list effect) (m : M A) :
  after t (after t' m) = after (t ++ t') m.
Proof. unfold after; cbn [fst snd]. now rewrite app_assoc. Qed.

Lemma snd_after {A} (t : list effect) (m : M A) :
  snd (after t m) = t ++ snd m.
Proof. reflexivity. Qed.

Lemma bind_pure {A B} (a : A) (k : A -> M B) : bind (pure a) k = k a.
Proof. unfold bind, pure. apply after_nil. Qed.

Lemma bind_normal {A B} (a : A) (t : list effect) (k : A -> M B) :
  bind (Normal a, t) k = after t (k a).
Proof. reflexivity. Qed.

Lemma bind_after {A B} (t : list effect) (m : M A) (k : A -> M B) :
  bind (after t m) k = after t (bind m k).
Proof.
  destruct m as [[a | r | e] t']; unfold after; cbn [bind fst snd after];
    try reflexivity.
  now rewrite app_assoc.
Qed.

Lemma try_except_after {A} (t : list effect) (m : M A) clauses :
  try_except (after t m) clauses = after t (try_except m clauses).
Proof.
  destruct m as [[a | r | e] t']; unfold after; cbn [try_except fst snd];
    try reflexivity.
  destruct (select_clause clauses e) as [h | ]; cbn [fst snd after];
    [ now rewrite app_assoc | reflexivity ].
Qed.

Lemma try_except_return {A} (r : response) (t : list effect) clauses :
  try_except (@Return A r, t) clauses = (Return r, t).
Proof. reflexivity. Qed.

(* ===================================================================== *)
(** ** Lines 17-36: the identifier                                        *)
(* ===================================================================== *)

Lemma read_client_id_requests (U : UnicodeData) (event : Event) (s : str) :
  requests event s -> read_client_id U event = pure (normalize U s).
Proof.
  intros (entries & Hbody & Hget).
  unfold read_client_id, event_getitem_body. rewrite Hbody, bind_pure.
  cbn [json_loads]. rewrite bind_pure. cbn [getitem]. rewrite Hget, bind_pure.
  cbn [method_lower]. now rewrite bind_pure.
Qed.

Lemma validate_well_formed (U : UnicodeData) (client_id : str) :
  well_formed U client_id = true -> validate U client_id = pure tt.
Proof.
  unfold well_formed, validate. intro H. apply andb_true_iff in H as [Hlen Hal].
  rewrite Hal. apply Nat.leb_le in Hlen.
  destruct client_id as [ | a [ | b rest ] ]; cbn in Hlen; try lia.
  reflexivity.
Qed.

Lemma validate_short (U : UnicodeData) (client_id : str) :
  (List.length client_id < 2)%nat ->
  validate U client_id =
    return_ (respond 400
      (error_body "client_id must be at least 2 characters long")).
Proof.
  intro H. unfold validate.
  destruct client_id as [ | a [ | b rest ] ]; cbn in H; try lia; reflexivity.
Qed.

Lemma validate_charset (U : UnicodeData) (client_id : str) :
  (2 <= List.length client_id)%nat ->
  isalnum U (replace (replace client_id "-" "") "_" "") = false ->
  validate U client_id =
    return_ (respond 400
      (error_body
         "client_id can only contain letters, numbers, hyphens and underscores")).
Proof.
  intros Hlen Hal. unfold validate. rewrite Hal.
  destruct client_id as [ | a [ | b rest ] ]; cbn in Hlen; try lia.
  reflexivity.
Qed.

(** Once the identifier is read and accepted, the handler is the workflow
    under the outer [except] clauses. *)
Lemma lambda_handler_workflow (U : UnicodeData) (event : Event) (w : World)
    (s : str) :
  requests event s ->
  well_formed U (normalize U s) = true ->
  lambda_handler U event w =
    try_except (workflow w (normalize U s)) outer_clauses.
Proof.
  intros Hreq Hwf. unfold lambda_handler.
  rewrite (read_client_id_requests U event s Hreq), bind_pure.
  rewrite (validate_well_formed U _ Hwf), bind_pure. reflexivity.
Qed.

(** C5. A request whose identifier, lower-cased and stripped, is empty or
    shorter than 2 characters is answered 400 with the minimum-length
    message, and the handler has no effect at all: no call, no print. *)
Theorem short_identifier_rejected (U : UnicodeData) (event : Event)
    (w : World) (s : str) :
  requests event s ->
  (List.length (normalize U s) < 2)%nat ->
  lambda_handler U event w =
    (Return (respond 400
       (error_body "client_id must be at least 2 characters long")), []).
Proof.
  intros Hreq Hlen. unfold lambda_handler.
  rewrite (read_client_id_requests U event s Hreq), bind_pure.
  rewrite (validate_short U _ Hlen). reflexivity.
Qed.

Lemma short_identifier_rejected_witness :
  normalize latin1 " A " = "a"
  /\ lambda_handler latin1 (request " A ") sample_world =
       (Return (respond 400
          (error_body "client_id must be at least 2 characters long")), []).
Proof.
  split; [ reflexivity | ].
  apply (short_identifier_rejected latin1 (request " A ") sample_world " A ").
  - eexists; split; reflexivity.
  - vm_compute; lia.
Defined.

(** C9, as stated, fails: a request without body (a [null] body) is not
    valid JSON, and the answer is 500 with the message of the [TypeError]
    of [json.loads], not 400; so is the answer to the text [NaN], which is
    not JSON but which [json.loads] turns into a float. *)
Lemma malformed_json_counterexample :
  lambda_handler latin1 {| event_body := Some BodyNull |} sample_world =
    (Return (respond 500 (error_body
       "Internal server error: the JSON object must be str, bytes or bytearray, not NoneType")),
     [Print "Error: the JSON object must be str, bytes or bytearray, not NoneType"])
  /\ ~ (exists r,
          returned (lambda_handler latin1 {| event_body := Some BodyNull |}
                      sample_world) = Some r
          /\ statusCode r = 400%Z)
  /\ returned (lambda_handler latin1
                 {| event_body := Some (BodyJson (JFloat "nan")) |}
                 sample_world) =
       Some (respond 500 (error_body
         "Internal server error: 'float' object is not subscriptable")).
Proof.
  split; [ reflexivity | ]. split; [ | reflexivity ].
  intros (r & Hr & Hs). vm_compute in Hr. injection Hr as <-. discriminate.
Qed.

(** C9, amended. A request whose body is a text that [json.loads] rejects
    with a [JSONDecodeError] is answered 400 with the invalid-JSON message;
    the handler prints the parse error and makes no call. *)
Theorem malformed_json_rejected (U : UnicodeData) (event : Event)
    (w : World) (err : str) :
  event_body event = Some (BodyMalformed err) ->
  lambda_handler U event w =
    (Return (respond 400 (error_body "Invalid JSON in request body")),
     [Print ("JSON parse error: " +++ err)])
  /\ calls_of (snd (lambda_handler U event w)) = [].
Proof.
  intro Hbody.
  assert (H : lambda_handler U event w =
    (Return (respond 400 (error_body "Invalid JSON in request body")),
     [Print ("JSON parse error: " +++ err)])).
  { unfold lambda_handler, read_client_id, event_getitem_body.
    rewrite Hbody, bind_pure. reflexivity. }
  rewrite H. split; reflexivity.
Qed.

(** The empty text, which [json.loads] rejects. *)
Lemma malformed_json_rejected_witness :
  let event :=
    {| event_body :=
         Some (BodyMalformed "Expecting value: line 1 column 1 (char 0)") |} in
  lambda_handler latin1 event sample_world =
    (Return (respond 400 (error_body "Invalid JSON in request body")),
     [Print ("JSON parse error: "
             +++ "Expecting value: line 1 column 1 (char 0)")])
  /\ calls_of (snd (lambda_handler latin1 event sample_world)) = [].
Proof.
  apply (malformed_json_rejected latin1 _ sample_world
           "Expecting value: line 1 column 1 (char 0)").
  reflexivity.
Defined.

(** A request without body (a [null] body) is not text for [json.loads]:
    the [TypeError] reaches the last clause and the answer is 500. *)
Lemma null_body_internal_error (U : UnicodeData) (w : World) :
  returned (lambda_handler U {| event_body := Some BodyNull |} w) =
    Some (respond 500 (error_body
      "Internal server error: the JSON object must be str, bytes or bytearray, not NoneType")).
Proof. reflexivity. Qed.




(** C4, as stated, fails: [cafe] is its own normal form and holds a
    character outside [a-z0-9_-], U+00E9, yet it is provisioned (U+00E9 is
    a letter for [str.isalnum]). *)
Lemma charset_counterexample :
  normalize latin1 cafe = cafe
  /\ existsb (fun c => negb (spec_charset c)) cafe = true
  /\ returned (lambda_handler latin1 (request cafe) sample_world) =
       Some (respond 200
         (success_response sample_config cafe (cafe +++ "/")
            "2025-01-01 00:00:00 UTC" "KB12345678" "DS12345678"))
  /\ calls_of (snd (lambda_handler latin1 (request cafe) sample_world)) <> [].
Proof.
  split; [ reflexivity | ]. split; [ reflexivity | ].
  split; [ vm_compute; reflexivity | vm_compute; discriminate ].
Qed.

(** C4, amended. A request whose normalized identifier has at least 2
    characters, one of which is neither a hyphen, nor an underscore, nor
    alphanumeric for [str.isalnum], is answered 400 with the
    invalid-characters message, and the handler has no effect at all. *)
Theorem invalid_characters_rejected (U : UnicodeData) (event : Event)
    (w : World) (s : str) (c : N) :
  requests event s ->
  (2 <= List.length (normalize U s))%nat ->
  In c (normalize U s) ->
  c <> 45%N -> c <> 95%N -> isalnum_cp U c = false ->
  lambda_handler U event w =
    (Return (respond 400
       (error_body
          "client_id can only contain letters, numbers, hyphens and underscores")),
     []).
Proof.
  intros Hreq Hlen Hin H45 H95 Hc. unfold lambda_handler.
  rewrite (read_client_id_requests U event s Hreq), bind_pure.
  rewrite (validate_charset U _ Hlen (charset_test_fails U _ c Hin H45 H95 Hc)).
  reflexivity.
Qed.

Lemma invalid_characters_rejected_witness :
  normalize latin1 "Acme 01" = "acme 01"
  /\ lambda_handler latin1 (request "Acme 01") sample_world =
       (Return (respond 400
          (error_body
             "client_id can only contain letters, numbers, hyphens and underscores")),
        []).
Proof.
  split; [ reflexivity | ].
  apply (invalid_characters_rejected latin1 (request "Acme 01") sample_world
           "Acme 01" 32%N).
  - eexists; split; reflexivity.
  - vm_compute; lia.
  - vm_compute; tauto.
  - discriminate.
  - discriminate.
  - reflexivity.
Defined.

(** An identifier of one character is answered with the minimum-length
    message whatever the character: line 20 comes before line 29. *)
Lemma one_character_is_short :
  lambda_handler latin1 (request "!") sample_world =
    (Return (respond 400
       (error_body "client_id must be at least 2 characters long")), []).
Proof. reflexivity. Qed.

(** An identifier made of hyphens and underscores only is refused: nothing
    is left for [isalnum]. *)
Lemma hyphens_only_rejected :
  lambda_handler latin1 (request "-_-") sample_world =
    (Return (respond 400
       (error_body
          "client_id can only contain letters, numbers, hyphens and underscores")),
     []).
Proof. reflexivity. Qed.

(* ===================================================================== *)
(** ** Lines 39-70: the configuration and the clients                     *)
(* ===================================================================== *)

Lemma read_config_missing (w : World) (k : str) :
  first_missing (environ w) = Some k -> read_config w = raise (key_error k).
Proof.
  unfold first_missing, required_variables, read_config, os_environ, is_unset.
  cbn [find].
  repeat match goal with
  | |- context [env_lookup (environ w) ?v] =>
      destruct (env_lookup (environ w) v);
      [ rewrite ?bind_pure | intro H; injection H as <-; reflexivity ]
  end.
  discriminate.
Qed.

Lemma workflow_startup (w : World) (cfg : config) (client_id : str) :
  read_config w = pure cfg ->
  clients w = Ok tt ->
  workflow w client_id =
    after (startup cfg client_id)
      (check_existing w client_id ;; provision w cfg client_id).
Proof.
  intros Hcfg Hcl. unfold workflow. rewrite Hcfg, bind_pure.
  unfold connect. rewrite Hcl. reflexivity.
Qed.

(** From an accepted request to the duplicate check. *)
Lemma lambda_handler_steps (U : UnicodeData) (event : Event) (w : World)
    (s : str) (cfg : config) :
  requests event s ->
  well_formed U (normalize U s) = true ->
  read_config w = pure cfg ->
  clients w = Ok tt ->
  lambda_handler U event w =
    after (startup cfg (normalize U s))
      (try_except
         (check_existing w (normalize U s) ;; provision w cfg (normalize U s))
         outer_clauses).
Proof.
  intros Hreq Hwf Hcfg Hcl.
  rewrite (lambda_handler_workflow U event w s Hreq Hwf).
  rewrite (workflow_startup w cfg _ Hcfg Hcl). apply try_except_after.
Qed.

(** C3, as stated, fails: without [REGION] in the environment the answer
    to a well-formed request is 400, not a 500-class error. *)
Lemma missing_configuration_counterexample :
  first_missing (environ world_without_region) = Some (of_string "REGION")
  /\ lambda_handler latin1 (request "acme-01") world_without_region =
       (Return (respond 400
          (error_body "Missing required field: 'REGION'")),
        [Print "Missing required field: 'REGION'"])
  /\ ~ (exists r,
          returned (lambda_handler latin1 (request "acme-01")
                      world_without_region) = Some r
          /\ (500 <= statusCode r)%Z).
Proof.
  split; [ reflexivity | ]. split; [ reflexivity | ].
  intros (r & Hr & Hs). vm_compute in Hr. injection Hr as <-.
  cbn in Hs. lia.
Qed.

(** C3, amended. When the identifier of a request is accepted and a
    required variable is absent from the environment, the answer is 400 with
    the message [Missing required field: '<NAME>'], where [<NAME>] is the
    first absent variable in reading order; the handler prints that line
    and makes no call. *)
Theorem missing_configuration_reported (U : UnicodeData) (event : Event)
    (w : World) (s k : str) :
  requests event s ->
  well_formed U (normalize U s) = true ->
  first_missing (environ w) = Some k ->
  lambda_handler U event w =
    (Return (respond 400
       (error_body ("Missing required field: " +++ squote +++ k +++ squote))),
     [Print ("Missing required field: " +++ squote +++ k +++ squote)]).
Proof.
  intros Hreq Hwf Hmiss.
  rewrite (lambda_handler_workflow U event w s Hreq Hwf).
  unfold workflow. rewrite (read_config_missing w k Hmiss). reflexivity.
Qed.

Lemma missing_configuration_reported_witness :
  lambda_handler latin1 (request "acme-01") world_without_region =
    (Return (respond 400
       (error_body ("Missing required field: " +++ squote +++ "REGION"
                    +++ squote))),
     [Print ("Missing required field: " +++ squote +++ "REGION" +++ squote)]).
Proof.
  apply (missing_configuration_reported latin1 (request "acme-01") world_without_region
           "acme-01" "REGION").
  - eexists; split; reflexivity.
  - reflexivity.
  - reflexivity.
Defined.

(* ===================================================================== *)
(** ** Lines 72-85: the duplicate check                                   *)
(* ===================================================================== *)

Section DuplicateCheck.
Variable client_id : str.

Let named (kb : kb_summary) : bool :=
  str_eqb (name kb) ("kb-" +++ client_id).
Let loop (l : list kb_summary) : M unit :=
  for_each l (fun kb =>
    when (str_eqb (name kb) ("kb-" +++ client_id))
      (return_ (conflict_response client_id kb))).

Lemma loop_first_match (l : list kb_summary) (kb : kb_summary) :
  find named l = Some kb -> loop l = return_ (conflict_response client_id kb).
Proof.
  induction l as [ | x rest IH ]; [ discriminate | ].
  unfold loop, named in *. cbn [find for_each].
  destruct (str_eqb (name x) ("kb-" +++ client_id)).
  - intro H; injection H as <-. reflexivity.
  - intro H. cbn [when]. rewrite bind_pure. now apply IH.
Qed.

Lemma loop_no_match (l : list kb_summary) :
  find named l = None -> loop l = pure tt.
Proof.
  induction l as [ | x rest IH ]; [ reflexivity | ].
  unfold loop, named in *. cbn [find for_each].
  destruct (str_eqb (name x) ("kb-" +++ client_id)); [ discriminate | ].
  intro H. cbn [when]. rewrite bind_pure. now apply IH.
Qed.

Lemma find_named_none (l : list kb_summary) :
  (forall kb, In kb l -> name kb <> "kb-" +++ client_id) ->
  find named l = None.
Proof.
  intro H. destruct (find named l) as [kb | ] eqn:E; [ | reflexivity ].
  apply find_some in E as [Hin Hn]. apply str_eqb_eq in Hn.
  now destruct (H kb Hin).
Qed.

Lemma find_named_some (l : list kb_summary) :
  (exists kb, In kb l /\ name kb = "kb-" +++ client_id) ->
  exists kb, find named l = Some kb.
Proof.
  intros (kb & Hin & Hn). destruct (find named l) as [kb' | ] eqn:E;
    [ now exists kb' | ].
  pose proof (find_none _ _ E kb Hin) as Hf. unfold named in Hf.
  rewrite Hn, str_eqb_refl in Hf. discriminate.
Qed.

Variable w : World.

Lemma check_existing_conflict (l : list kb_summary) (kb : kb_summary) :
  list_knowledge_bases w = Ok l ->
  find named l = Some kb ->
  check_existing w client_id =
    (Return (conflict_response client_id kb), [Call ListKnowledgeBases]).
Proof.
  intros Hl Hf. unfold check_existing, invoke. rewrite Hl, bind_normal.
  fold (loop l). rewrite (loop_first_match l kb Hf). reflexivity.
Qed.

Lemma check_existing_clear (l : list kb_summary) :
  list_knowledge_bases w = Ok l ->
  find named l = None ->
  check_existing w client_id = (Normal tt, [Call ListKnowledgeBases]).
Proof.
  intros Hl Hf. unfold check_existing, invoke. rewrite Hl, bind_normal.
  fold (loop l). rewrite (loop_no_match l Hf). reflexivity.
Qed.

Lemma check_existing_client_error (e : exn) :
  list_knowledge_bases w = Fails e ->
  is_ClientError e = true ->
  check_existing w client_id =
    (Normal tt,
     [Call ListKnowledgeBases;
      Print ("Warning checking existing KBs: " +++ msg e)]).
Proof.
  intros Hl He. unfold check_existing, invoke. rewrite Hl.
  cbn [bind try_except select_clause]. rewrite He. reflexivity.
Qed.

Lemma check_existing_other_error (e : exn) :
  list_knowledge_bases w = Fails e ->
  is_ClientError e = false ->
  check_existing w client_id = (Raise e, [Call ListKnowledgeBases]).
Proof.
  intros Hl He. unfold check_existing, invoke. rewrite Hl.
  cbn [bind try_except select_clause]. rewrite He. reflexivity.
Qed.

(** When step 1 lets the request through, it ends normally. *)
Lemma check_existing_pass :
  no_conflict w client_id ->
  exists t, check_existing w client_id = (Normal tt, t)
            /\ calls_of t = [ListKnowledgeBases].
Proof.
  unfold no_conflict. destruct (list_knowledge_bases w) as [l | e] eqn:Hl.
  - intro H. eexists; split;
      [ apply (check_existing_clear l Hl (find_named_none l H)) | reflexivity ].
  - intro H. eexists; split;
      [ apply (check_existing_client_error e Hl H) | reflexivity ].
Qed.

End DuplicateCheck.

(** C2. When the identifier of a request is accepted, the configuration is
    complete, the clients are built, and the listing holds a record named
    [kb-<client_id>], the answer is 409 with the identifier of the first
    such record as [existing_kb_id], and the listing is the only call
    made. *)
Theorem existing_knowledge_base_conflict (U : UnicodeData) (event : Event)
    (w : World) (s : str) (cfg : config) (l : list kb_summary) :
  requests event s ->
  well_formed U (normalize U s) = true ->
  read_config w = pure cfg ->
  clients w = Ok tt ->
  list_knowledge_bases w = Ok l ->
  (exists kb, In kb l /\ name kb = "kb-" +++ normalize U s) ->
  exists kb,
    In kb l
    /\ name kb = "kb-" +++ normalize U s
    /\ find (fun x => str_eqb (name x) ("kb-" +++ normalize U s)) l = Some kb
    /\ lambda_handler U event w =
         (Return (respond 409 (JDict
            [ entry "error"
                (JStr ("Knowledge Base for client " +++ dquote
                       +++ normalize U s +++ dquote +++ " already exists"));
              entry "existing_kb_id" (JStr (knowledgeBaseId kb)) ])),
          startup cfg (normalize U s) ++ [Call ListKnowledgeBases])
    /\ calls_of (snd (lambda_handler U event w)) = [ListKnowledgeBases].
Proof.
  intros Hreq Hwf Hcfg Hcl Hl Hex.
  destruct (find_named_some (normalize U s) l Hex) as [kb Hf].
  exists kb. pose proof (find_some _ _ Hf) as [Hin Hn].
  apply str_eqb_eq in Hn.
  assert (H : lambda_handler U event w =
    (Return (conflict_response (normalize U s) kb),
     startup cfg (normalize U s) ++ [Call ListKnowledgeBases])).
  { rewrite (lambda_handler_steps U event w s cfg Hreq Hwf Hcfg Hcl).
    rewrite (check_existing_conflict (normalize U s) w l kb Hl Hf). reflexivity. }
  repeat split; try assumption. rewrite H. reflexivity.
Qed.

Lemma existing_knowledge_base_conflict_witness :
  exists kb,
    In kb [acme_kb]
    /\ name kb = "kb-" +++ normalize latin1 "Acme-01"
    /\ find (fun x => str_eqb (name x) ("kb-" +++ normalize latin1 "Acme-01"))
         [acme_kb] = Some kb
    /\ lambda_handler latin1 (request "Acme-01") world_with_acme =
         (Return (respond 409 (JDict
            [ entry "error"
                (JStr ("Knowledge Base for client " +++ dquote
                       +++ normalize latin1 "Acme-01" +++ dquote
                       +++ " already exists"));
              entry "existing_kb_id" (JStr (knowledgeBaseId kb)) ])),
          startup sample_config (normalize latin1 "Acme-01")
          ++ [Call ListKnowledgeBases])
    /\ calls_of (snd (lambda_handler latin1 (request "Acme-01") world_with_acme)) =
         [ListKnowledgeBases].
Proof.
  apply (existing_knowledge_base_conflict latin1 (request "Acme-01") world_with_acme
           "Acme-01" sample_config [acme_kb]).
  - eexists; split; reflexivity.
  - reflexivity.
  - reflexivity.
  - reflexivity.
  - reflexivity.
  - exists acme_kb. split; [ left; reflexivity | reflexivity ].
Defined.

(* ===================================================================== *)
(** ** Lines 87-260: the steps after the duplicate check                  *)
(* ===================================================================== *)

Lemma create_folder_ok (w : World) (cfg : config) (folder_key readme : str) :
  put_object w = Ok tt ->
  create_folder w cfg folder_key readme =
    (Normal tt,
     [Call (PutObject (s3_bucket_name cfg) (folder_key +++ "README.md")
              readme "text/markdown");
      Print ("Carpeta creada: s3://" +++ s3_bucket_name cfg +++ "/"
             +++ folder_key)]).
Proof. intro H. unfold create_folder, invoke. rewrite H. reflexivity. Qed.

(** Whatever the store replies, step 2 begins with the [put_object] call. *)
Lemma create_folder_first (w : World) (cfg : config) (folder_key readme : str) :
  exists rest,
    snd (create_folder w cfg folder_key readme) =
      Call (PutObject (s3_bucket_name cfg) (folder_key +++ "README.md")
              readme "text/markdown") :: rest.
Proof.
  unfold create_folder, invoke.
  destruct (put_object w) as [[] | [c m]]; [ | destruct c ];
    eexists; reflexivity.
Qed.

Lemma create_index_present (w : World) (index_name : str) :
  indices_exists w = Ok true ->
  create_index w index_name =
    (Normal tt,
     [Print ("Creating OpenSearch index: " +++ index_name);
      Call (IndicesExists index_name);
      Print ("Index " +++ index_name +++ " already exists, skipping creation")]).
Proof. intro H. unfold create_index, invoke. rewrite H. reflexivity. Qed.

Lemma create_index_absent (w : World) (index_name r : str) :
  indices_exists w = Ok false ->
  indices_create w = Ok r ->
  create_index w index_name =
    (Normal tt,
     [Print ("Creating OpenSearch index: " +++ index_name);
      Call (IndicesExists index_name);
      Call (IndicesCreate index_name index_body);
      Print ("OpenSearch index created: " +++ index_name);
      Print ("Index response: " +++ r)]).
Proof.
  intros H1 H2. unfold create_index, invoke. rewrite H1, H2. reflexivity.
Qed.

Lemma create_index_ready (w : World) (index_name : str) :
  index_ready w ->
  exists t, create_index w index_name = (Normal tt, t).
Proof.
  intros [H | (H & r & Hr)]; eexists;
    [ apply (create_index_present w index_name H)
    | apply (create_index_absent w index_name r H Hr) ].
Qed.

Lemma create_kb_ok (w : World) (cfg : config) (client_id kb_name kb_id : str) :
  create_knowledge_base w = Ok kb_id ->
  create_kb w cfg client_id kb_name =
    (Normal kb_id,
     [Print ("Creating Knowledge Base: " +++ kb_name);
      Call (kb_request cfg client_id kb_name);
      Print ("Knowledge Base creada: " +++ kb_id)]).
Proof. intro H. unfold create_kb, invoke. rewrite H. reflexivity. Qed.

(** The clean-up ends normally whatever the delete call replies. *)
Lemma cleanup_kb_always (w : World) (kb_id : str) :
  cleanup_kb w kb_id =
    (Normal tt,
     [Print ("Cleaning up Knowledge Base: " +++ kb_id);
      Call (DeleteKnowledgeBase kb_id)]
     ++ cleanup_log (delete_knowledge_base w)).
Proof.
  unfold cleanup_kb, invoke.
  destruct (delete_knowledge_base w) as [[] | e]; reflexivity.
Qed.

Lemma create_ds_ok (w : World) (cfg : config)
    (client_id folder_key kb_id ds_id : str) :
  create_data_source w = Ok ds_id ->
  create_ds w cfg client_id folder_key kb_id =
    (Normal ds_id,
     [Print ("Creating Data Source for S3 prefix: " +++ folder_key);
      Call (ds_request cfg client_id folder_key kb_id);
      Print ("Data Source creada: " +++ ds_id)]).
Proof. intro H. unfold create_ds, invoke. rewrite H. reflexivity. Qed.

Lemma create_ds_client_error (w : World) (cfg : config)
    (client_id folder_key kb_id : str) (e : exn) :
  create_data_source w = Fails e ->
  is_ClientError e = true ->
  create_ds w cfg client_id folder_key kb_id =
    (Return (respond 500
       (error_body ("Failed to create Data Source: " +++ msg e))),
     [Print ("Creating Data Source for S3 prefix: " +++ folder_key);
      Call (ds_request cfg client_id folder_key kb_id);
      Print ("Error creando Data Source: " +++ msg e);
      Print ("Cleaning up Knowledge Base: " +++ kb_id);
      Call (DeleteKnowledgeBase kb_id)]
     ++ cleanup_log (delete_knowledge_base w)).
Proof.
  intros H He. unfold create_ds, invoke. rewrite H.
  cbn [bind print try_except select_clause after fst snd app]. rewrite He.
  rewrite cleanup_kb_always.
  destruct (delete_knowledge_base w) as [[] | e']; reflexivity.
Qed.

Lemma bind_first {A B} (m : M A) (k : A -> M B) (x : effect)
    (rest : list effect) :
  snd m = x :: rest -> exists rest', snd (bind m k) = x :: rest'.
Proof.
  destruct m as [[a | r | e] t]; cbn [snd]; intros ->; cbn [bind];
    eexists; reflexivity.
Qed.

Lemma try_except_first {A} (m : M A) clauses (x : effect)
    (rest : list effect) :
  snd m = x :: rest -> exists rest', snd (try_except m clauses) = x :: rest'.
Proof.
  destruct m as [[a | r | e] t]; cbn [snd]; intros ->; cbn [try_except];
    try (eexists; reflexivity).
  destruct (select_clause clauses e); eexists; reflexivity.
Qed.

(** Steps 4 and 5 under the outer clauses: whatever the registry replies,
    they begin with the [create_knowledge_base] call and never create an
    index. *)
Lemma register_calls (w : World) (cfg : config)
    (client_id folder_key timestamp : str) :
  exists rest,
    snd (try_except (register w cfg client_id folder_key timestamp)
           outer_clauses) =
      Print ("Creating Knowledge Base: " +++ "kb-" +++ client_id)
      :: Call (kb_request cfg client_id ("kb-" +++ client_id)) :: rest
    /\ existsb is_indices_create (calls_of rest) = false.
Proof.
  unfold register, create_kb, create_ds, cleanup_kb, invoke.
  destruct (create_knowledge_base w) as [kb_id | [c m]].
  - destruct (create_data_source w) as [ds_id | [c m]].
    + eexists; split; reflexivity.
    + destruct c; try (eexists; split; reflexivity).
      destruct (delete_knowledge_base w) as [[] | e'];
        eexists; split; reflexivity.
  - destruct c; eexists; split; reflexivity.
Qed.

Lemma calls_of_app (t t' : list effect) :
  calls_of (t ++ t') = calls_of t ++ calls_of t'.
Proof. apply flat_map_app. Qed.

(** C6, as stated, fails: a listing call that fails with an exception
    other than [ClientError] (here botocore's connection error) ends the
    request with a 500 answer, and no later step runs. *)
Lemma listing_failure_counterexample :
  list_knowledge_bases world_listing_unreachable = Fails unreachable
  /\ returned (lambda_handler latin1 (request "acme-01")
                 world_listing_unreachable) =
       Some (respond 500 (error_body
         "Internal server error: Could not connect to the endpoint URL"))
  /\ calls_of (snd (lambda_handler latin1 (request "acme-01")
                      world_listing_unreachable)) =
       [ListKnowledgeBases].
Proof. repeat split; vm_compute; reflexivity. Qed.

(** C6, amended. When the listing call of step 1 raises a [ClientError],
    the handler prints the warning and goes on with steps 2 to 5 exactly as
    they run otherwise: the rest of the invocation is [provision] under the
    outer clauses, it begins with the [put_object] call of step 2, and the
    answer and the calls are those of the same world with an empty
    listing. *)
Theorem listing_client_error_not_fatal (U : UnicodeData) (event : Event)
    (w : World) (s : str) (cfg : config) (e : exn) :
  requests event s ->
  well_formed U (normalize U s) = true ->
  read_config w = pure cfg ->
  clients w = Ok tt ->
  list_knowledge_bases w = Fails e ->
  is_ClientError e = true ->
  lambda_handler U event w =
    after (startup cfg (normalize U s)
           ++ [Call ListKnowledgeBases;
               Print ("Warning checking existing KBs: " +++ msg e)])
      (try_except (provision w cfg (normalize U s)) outer_clauses)
  /\ (exists rest,
       snd (try_except (provision w cfg (normalize U s)) outer_clauses) =
         Call (PutObject (s3_bucket_name cfg)
                 ((normalize U s +++ "/") +++ "README.md")
                 ("# Knowledge Base para " +++ normalize U s)
                 "text/markdown") :: rest)
  /\ returned (lambda_handler U event w) =
       returned (lambda_handler U event (with_listing (Ok []) w))
  /\ calls_of (snd (lambda_handler U event w)) =
       calls_of (snd (lambda_handler U event (with_listing (Ok []) w))).
Proof.
  intros Hreq Hwf Hcfg Hcl Hl He.
  assert (H : lambda_handler U event w =
    after (startup cfg (normalize U s)
           ++ [Call ListKnowledgeBases;
               Print ("Warning checking existing KBs: " +++ msg e)])
      (try_except (provision w cfg (normalize U s)) outer_clauses)).
  { rewrite (lambda_handler_steps U event w s cfg Hreq Hwf Hcfg Hcl).
    rewrite (check_existing_client_error _ w e Hl He), bind_normal.
    rewrite try_except_after, after_after. reflexivity. }
  assert (H' : lambda_handler U event (with_listing (Ok []) w) =
    after (startup cfg (normalize U s) ++ [Call ListKnowledgeBases])
      (try_except (provision w cfg (normalize U s)) outer_clauses)).
  { rewrite (lambda_handler_steps U event (with_listing (Ok []) w) s cfg
               Hreq Hwf Hcfg Hcl).
    rewrite (check_existing_clear _ (with_listing (Ok []) w) []
               eq_refl eq_refl), bind_normal.
    rewrite try_except_after, after_after. reflexivity. }
  split; [ exact H | ]. split; [ | rewrite H, H'; split ].
  - unfold provision.
    destruct (create_folder_first w cfg (normalize U s +++ "/")
                ("# Knowledge Base para " +++ normalize U s)) as [r Hr].
    destruct (bind_first _
      (fun _ => create_index w (normalize U s +++ "_index") ;;
                register w cfg (normalize U s) (normalize U s +++ "/") (now w))
      _ _ Hr) as [r' Hr'].
    apply (try_except_first _ outer_clauses _ _ Hr').
  - reflexivity.
  - rewrite !snd_after, !calls_of_app. reflexivity.
Qed.

Lemma listing_client_error_not_fatal_witness :
  lambda_handler latin1 (request "acme-01") world_listing_denied =
    after (startup sample_config (normalize latin1 "acme-01")
           ++ [Call ListKnowledgeBases;
               Print ("Warning checking existing KBs: " +++ msg denied)])
      (try_except
         (provision world_listing_denied sample_config
            (normalize latin1 "acme-01"))
         outer_clauses)
  /\ (exists rest,
       snd (try_except
              (provision world_listing_denied sample_config
                 (normalize latin1 "acme-01"))
              outer_clauses) =
         Call (PutObject (s3_bucket_name sample_config)
                 ((normalize latin1 "acme-01" +++ "/") +++ "README.md")
                 ("# Knowledge Base para " +++ normalize latin1 "acme-01")
                 "text/markdown") :: rest)
  /\ returned (lambda_handler latin1 (request "acme-01") world_listing_denied)
     = returned (lambda_handler latin1 (request "acme-01")
                   (with_listing (Ok []) world_listing_denied))
  /\ calls_of (snd (lambda_handler latin1 (request "acme-01")
                      world_listing_denied)) =
       calls_of (snd (lambda_handler latin1 (request "acme-01")
                        (with_listing (Ok []) world_listing_denied))).
Proof.
  apply (listing_client_error_not_fatal latin1 (request "acme-01") world_listing_denied
           "acme-01" sample_config denied).
  - eexists; split; reflexivity.
  - reflexivity.
  - reflexivity.
  - reflexivity.
  - reflexivity.
  - reflexivity.
Defined.

(** C7. When a request reaches step 3 and the index [<client_id>_index]
    exists, the handler prints that it skips the creation, goes on to the
    [create_knowledge_base] call, and no [indices.create] call occurs in the
    whole invocation. *)
Theorem existing_index_skipped (U : UnicodeData) (event : Event)
    (w : World) (s : str) (cfg : config) :
  requests event s ->
  well_formed U (normalize U s) = true ->
  read_config w = pure cfg ->
  clients w = Ok tt ->
  no_conflict w (normalize U s) ->
  put_object w = Ok tt ->
  indices_exists w = Ok true ->
  (exists before rest,
     snd (lambda_handler U event w) =
       before
       ++ [ Print ("Creating OpenSearch index: " +++ normalize U s
                   +++ "_index");
            Call (IndicesExists (normalize U s +++ "_index"));
            Print ("Index " +++ (normalize U s +++ "_index")
                   +++ " already exists, skipping creation");
            Print ("Creating Knowledge Base: " +++ "kb-" +++ normalize U s);
            Call (kb_request cfg (normalize U s) ("kb-" +++ normalize U s)) ]
       ++ rest)
  /\ existsb is_indices_create (calls_of (snd (lambda_handler U event w)))
     = false.
Proof.
  intros Hreq Hwf Hcfg Hcl Hno Hput Hex.
  rewrite (lambda_handler_steps U event w s cfg Hreq Hwf Hcfg Hcl).
  destruct (check_existing_pass _ w Hno) as (t1 & H1 & Hc1).
  rewrite H1, bind_normal. unfold provision.
  rewrite (create_folder_ok w cfg _ _ Hput), bind_normal.
  rewrite (create_index_present w _ Hex), bind_normal.
  rewrite !try_except_after.
  destruct (register_calls w cfg (normalize U s) (normalize U s +++ "/")
              (now w)) as (rest & Hr & Hrest).
  rewrite !snd_after, Hr. split.
  - exists (startup cfg (normalize U s) ++ t1
            ++ [Call (PutObject (s3_bucket_name cfg)
                        ((normalize U s +++ "/") +++ "README.md")
                        ("# Knowledge Base para " +++ normalize U s)
                        "text/markdown");
                Print ("Carpeta creada: s3://" +++ s3_bucket_name cfg +++ "/"
                       +++ normalize U s +++ "/")]), rest.
    rewrite <- !app_assoc. reflexivity.
  - rewrite !calls_of_app, Hc1, !existsb_app.
    cbn [calls_of flat_map app existsb is_indices_create orb startup].
    exact Hrest.
Qed.

Lemma existing_index_skipped_witness :
  let id := normalize latin1 "Acme-01" in
  (exists before rest,
     snd (lambda_handler latin1 (request "Acme-01") world_index_exists) =
       before
       ++ [ Print ("Creating OpenSearch index: " +++ id +++ "_index");
            Call (IndicesExists (id +++ "_index"));
            Print ("Index " +++ (id +++ "_index")
                   +++ " already exists, skipping creation");
            Print ("Creating Knowledge Base: " +++ "kb-" +++ id);
            Call (kb_request sample_config id ("kb-" +++ id)) ]
       ++ rest)
  /\ existsb is_indices_create
       (calls_of (snd (lambda_handler latin1 (request "Acme-01") world_index_exists))) = false.
Proof.
  apply (existing_index_skipped latin1 (request "Acme-01") world_index_exists "Acme-01"
           sample_config).
  - eexists; split; reflexivity.
  - reflexivity.
  - reflexivity.
  - reflexivity.
  - intros kb [].
  - reflexivity.
  - reflexivity.
Defined.

(** C1, as stated, fails: when the data-source call fails with an
    exception other than [ClientError] (here botocore's connection error),
    the knowledge base just created is not deleted and the answer is the
    internal-error one, not the data-source one. *)
Lemma data_source_failure_counterexample :
  create_knowledge_base world_ds_unreachable = Ok (of_string "KB12345678")
  /\ create_data_source world_ds_unreachable = Fails unreachable
  /\ returned (lambda_handler latin1 (request "acme-01")
                 world_ds_unreachable) =
       Some (respond 500 (error_body
         "Internal server error: Could not connect to the endpoint URL"))
  /\ calls_of (snd (lambda_handler latin1 (request "acme-01")
                      world_ds_unreachable)) =
       [ ListKnowledgeBases;
         PutObject "rag-uno-docs" "acme-01/README.md"
           "# Knowledge Base para acme-01" "text/markdown";
         IndicesExists "acme-01_index";
         IndicesCreate "acme-01_index" index_body;
         kb_request sample_config "acme-01" "kb-acme-01";
         ds_request sample_config "acme-01" "acme-01/" "KB12345678" ]
  /\ existsb is_delete_knowledge_base
       (calls_of (snd (lambda_handler latin1 (request "acme-01")
                         world_ds_unreachable))) = false.
Proof. repeat split; vm_compute; reflexivity. Qed.

(** C1, amended. When a request reaches step 5 with the knowledge base
    [kb_id] created in step 4 and the data-source call raises a
    [ClientError], the handler calls [delete_knowledge_base] on [kb_id]
    before it returns, and returns 500 with the data-source message;
    whatever the delete call replies, the answer is the same, and a failed
    delete only adds its line to the log. *)
Theorem data_source_failure_compensated (U : UnicodeData) (event : Event)
    (w : World) (s : str) (cfg : config) (kb_id : str) (e : exn) :
  requests event s ->
  well_formed U (normalize U s) = true ->
  read_config w = pure cfg ->
  clients w = Ok tt ->
  no_conflict w (normalize U s) ->
  put_object w = Ok tt ->
  index_ready w ->
  create_knowledge_base w = Ok kb_id ->
  create_data_source w = Fails e ->
  is_ClientError e = true ->
  exists before,
    lambda_handler U event w =
      (Return (respond 500
         (error_body ("Failed to create Data Source: " +++ msg e))),
       before
       ++ [ Print ("Creating Knowledge Base: " +++ "kb-" +++ normalize U s);
            Call (kb_request cfg (normalize U s) ("kb-" +++ normalize U s));
            Print ("Knowledge Base creada: " +++ kb_id);
            Print ("Creating Data Source for S3 prefix: "
                   +++ normalize U s +++ "/");
            Call (ds_request cfg (normalize U s) (normalize U s +++ "/")
                    kb_id);
            Print ("Error creando Data Source: " +++ msg e);
            Print ("Cleaning up Knowledge Base: " +++ kb_id);
            Call (DeleteKnowledgeBase kb_id) ]
       ++ cleanup_log (delete_knowledge_base w)).
Proof.
  intros Hreq Hwf Hcfg Hcl Hno Hput Hidx Hkb Hds He.
  rewrite (lambda_handler_steps U event w s cfg Hreq Hwf Hcfg Hcl).
  destruct (check_existing_pass _ w Hno) as (t1 & H1 & _).
  destruct (create_index_ready w (normalize U s +++ "_index") Hidx)
    as (t3 & H3).
  rewrite H1, bind_normal. unfold provision.
  rewrite (create_folder_ok w cfg _ _ Hput), bind_normal.
  rewrite H3, bind_normal. unfold register.
  rewrite (create_kb_ok w cfg _ _ kb_id Hkb), bind_normal.
  rewrite (create_ds_client_error w cfg _ _ kb_id e Hds He).
  exists (startup cfg (normalize U s) ++ t1
          ++ [Call (PutObject (s3_bucket_name cfg)
                      ((normalize U s +++ "/") +++ "README.md")
                      ("# Knowledge Base para " +++ normalize U s)
                      "text/markdown");
              Print ("Carpeta creada: s3://" +++ s3_bucket_name cfg +++ "/"
                     +++ normalize U s +++ "/")]
          ++ t3).
  cbn [bind]. rewrite !try_except_after, try_except_return.
  unfold after. cbn [fst snd]. rewrite <- !app_assoc. reflexivity.
Qed.

Lemma data_source_failure_compensated_witness :
  let id := normalize latin1 "Acme-01" in
  exists before,
    lambda_handler latin1 (request "Acme-01") world_ds_denied =
      (Return (respond 500
         (error_body ("Failed to create Data Source: " +++ msg denied))),
       before
       ++ [ Print ("Creating Knowledge Base: " +++ "kb-" +++ id);
            Call (kb_request sample_config id ("kb-" +++ id));
            Print ("Knowledge Base creada: " +++ "KB12345678");
            Print ("Creating Data Source for S3 prefix: " +++ id +++ "/");
            Call (ds_request sample_config id (id +++ "/") "KB12345678");
            Print ("Error creando Data Source: " +++ msg denied);
            Print ("Cleaning up Knowledge Base: " +++ "KB12345678");
            Call (DeleteKnowledgeBase "KB12345678") ]
       ++ cleanup_log (Fails unreachable)).
Proof.
  apply (data_source_failure_compensated latin1 (request "Acme-01") world_ds_denied
           "Acme-01" sample_config "KB12345678" denied).
  - eexists; split; reflexivity.
  - reflexivity.
  - reflexivity.
  - reflexivity.
  - intros kb [].
  - reflexivity.
  - right. split; [ reflexivity | eexists; reflexivity ].
  - reflexivity.
  - reflexivity.
  - reflexivity.
Defined.

(** C8. For the body [{client_id: Acme-01}] in a world where every call
    succeeds: the identifier is [acme-01]; the marker object is written
    under [acme-01/], the index is [acme-01_index], the knowledge base is
    [kb-acme-01] on that index, the data source includes the prefix
    [acme-01/]; and the answer is 200 with [success] true, [client_id]
    [acme-01], [opensearch_index] [acme-01_index] and [status] [created]. *)
Theorem acme_end_to_end (U : UnicodeData) (w : World) (cfg : config)
    (l : list kb_summary) (present : bool) (created kb_id ds_id : str) :
  read_config w = pure cfg ->
  clients w = Ok tt ->
  list_knowledge_bases w = Ok l ->
  (forall kb, In kb l -> name kb <> "kb-acme-01") ->
  put_object w = Ok tt ->
  indices_exists w = Ok present ->
  indices_create w = Ok created ->
  create_knowledge_base w = Ok kb_id ->
  create_data_source w = Ok ds_id ->
  let answer :=
    success_response cfg "acme-01" "acme-01/" (now w) kb_id ds_id in
  normalize U "Acme-01" = "acme-01"
  /\ returned (lambda_handler U (request "Acme-01") w) =
       Some {| statusCode := 200;
               headers := cors_headers;
               body := json_dumps answer |}
  /\ json_field answer "success" = Some (JBool true)
  /\ json_field answer "client_id" = Some (JS "acme-01")
  /\ json_field answer "s3_folder" = Some (JS "acme-01/")
  /\ json_field answer "opensearch_index" = Some (JS "acme-01_index")
  /\ json_field answer "status" = Some (JS "created")
  /\ calls_of (snd (lambda_handler U (request "Acme-01") w)) =
       [ ListKnowledgeBases;
         PutObject (s3_bucket_name cfg) "acme-01/README.md"
           "# Knowledge Base para acme-01" "text/markdown";
         IndicesExists "acme-01_index" ]
       ++ (if present then [] else [IndicesCreate "acme-01_index" index_body])
       ++ [ CreateKnowledgeBase "kb-acme-01"
              "Knowledge Base para cliente acme-01 - RAG Multi-tenant Demo"
              (bedrock_kb_role_arn cfg)
              knowledge_base_configuration
              (JDict
                 [ entry "type" (JS "OPENSEARCH_SERVERLESS");
                   entry "opensearchServerlessConfiguration" (JDict
                     [ entry "collectionArn"
                         (JStr (opensearch_collection_arn cfg));
                       entry "vectorIndexName" (JS "acme-01_index");
                       entry "fieldMapping" (JDict
                         [ entry "vectorField" (JS "vector");
                           entry "textField" (JS "text");
                           entry "metadataField" (JS "metadata") ]) ]) ]);
            CreateDataSource kb_id "s3-datasource-acme-01"
              "S3 data source para acme-01 - carpeta acme-01/"
              (JDict
                 [ entry "type" (JS "S3");
                   entry "s3Configuration" (JDict
                     [ entry "bucketArn" (JStr (s3_bucket_arn cfg));
                       entry "inclusionPrefixes"
                         (JList [JS "acme-01/"]) ]) ]) ].
Proof.
  intros Hcfg Hcl Hl Hno Hput Hex Hcr Hkb Hds answer.
  assert (Hn : normalize U "Acme-01" = "acme-01") by reflexivity.
  assert (Hreq : requests (request "Acme-01") "Acme-01")
    by (eexists; split; reflexivity).
  assert (Hwf : well_formed U (normalize U "Acme-01") = true) by reflexivity.
  assert (Hidx : exists t3,
    create_index w (of_string "acme-01" +++ "_index") = (Normal tt, t3)
    /\ calls_of t3 =
         IndicesExists "acme-01_index"
         :: (if present then []
             else [IndicesCreate "acme-01_index" index_body])).
  { destruct present; eexists; split;
      [ apply (create_index_present w _ Hex) | reflexivity
      | apply (create_index_absent w _ created Hex Hcr) | reflexivity ]. }
  destruct Hidx as (t3 & H3 & Hc3).
  assert (H : lambda_handler U (request "Acme-01") w =
    (Return (respond 200 answer),
     startup cfg "acme-01"
     ++ [ Call ListKnowledgeBases;
          Call (PutObject (s3_bucket_name cfg) "acme-01/README.md"
                  "# Knowledge Base para acme-01" "text/markdown");
          Print ("Carpeta creada: s3://" +++ s3_bucket_name cfg
                 +++ "/acme-01/") ]
     ++ t3
     ++ [ Print "Creating Knowledge Base: kb-acme-01";
          Call (kb_request cfg "acme-01" "kb-acme-01");
          Print ("Knowledge Base creada: " +++ kb_id);
          Print "Creating Data Source for S3 prefix: acme-01/";
          Call (ds_request cfg "acme-01" "acme-01/" kb_id);
          Print ("Data Source creada: " +++ ds_id);
          Print "Knowledge Base creation completed successfully!";
          Print ("Response: " +++ json_dumps_indent 2 answer) ])).
  { rewrite (lambda_handler_steps U _ w _ cfg Hreq Hwf Hcfg Hcl), Hn.
    rewrite (check_existing_clear "acme-01" w l Hl
               (find_named_none "acme-01" l Hno)), bind_normal.
    unfold provision.
    rewrite (create_folder_ok w cfg _ _ Hput), bind_normal.
    rewrite H3, bind_normal. unfold register.
    rewrite (create_kb_ok w cfg _ _ kb_id Hkb), bind_normal.
    rewrite (create_ds_ok w cfg _ _ kb_id ds_id Hds), bind_normal.
    rewrite !try_except_after. unfold after. cbn [fst snd].
    rewrite <- ?app_assoc. reflexivity. }
  repeat split; try reflexivity.
  - rewrite H. reflexivity.
  - rewrite H. cbn [snd]. rewrite !calls_of_app, Hc3. reflexivity.
Qed.

Lemma acme_end_to_end_witness :
  returned (lambda_handler latin1 (request "Acme-01") sample_world) =
    Some {| statusCode := 200;
            headers := cors_headers;
            body := json_dumps
              (success_response sample_config "acme-01" "acme-01/"
                 "2025-01-01 00:00:00 UTC" "KB12345678" "DS12345678") |}.
Proof.
  apply (acme_end_to_end latin1 sample_world sample_config [] false
           "{'acknowledged': True}" "KB12345678" "DS12345678").
  - reflexivity.
  - reflexivity.
  - reflexivity.
  - intros kb [].
  - reflexivity.
  - reflexivity.
  - reflexivity.
  - reflexivity.
  - reflexivity.
Defined.

(* ===================================================================== *)
(** ** The handler always answers                                         *)
(* ===================================================================== *)

Lemma abrupt_bind {A B} (m : M A) (k : A -> M B) :
  (forall a, abrupt (k a)) -> abrupt (bind m k).
Proof.
  intro H. destruct m as [[a | r | e] t]; cbn; try exact I. apply H.
Qed.

(** A statement that does not end normally, under the outer clauses. *)
Lemma outer_clauses_answer (m : M unit) :
  abrupt m -> answers (try_except m outer_clauses).
Proof.
  destruct m as [[[] | r | [c x]] t]; cbn; intro H.
  - destruct H.
  - eexists; eexists; reflexivity.
  - destruct c; eexists; eexists; reflexivity.
Qed.

(** Every invocation ends by returning a response: no exception leaves the
    handler, and no path falls off its end. *)
Theorem lambda_handler_answers (U : UnicodeData) (event : Event) (w : World) :
  answers (lambda_handler U event w).
Proof.
  apply outer_clauses_answer.
  apply abrupt_bind; intro client_id.
  apply abrupt_bind; intros _.
  unfold workflow. apply abrupt_bind; intro cfg.
  do 5 (apply abrupt_bind; intros _).
  unfold provision. do 2 (apply abrupt_bind; intros _).
  unfold register. apply abrupt_bind; intro kb_id.
  apply abrupt_bind; intro ds_id.
  do 2 (apply abrupt_bind; intros _). exact I.
Qed.

(* ===================================================================== *)
(** ** The stub lister                                                    *)
(* ===================================================================== *)

Lemma list_kb_handler_answer :
  statusCode list_kb_handler = 200%Z
  /\ body list_kb_handler =
       json_dumps (JDict [ entry "ok" (JBool true);
                           entry "knowledge_bases" (JS "list_kb") ]).
Proof. split; reflexivity. Qed.

(* ===================================================================== *)
(** ** The failure of each step                                           *)
(* ===================================================================== *)

(** An exception that reaches the outer clauses is answered. *)
Lemma outer_clauses_raise (e : exn) (t : list effect) :
  try_except (Raise e, t) outer_clauses =
    (Return (outer_answer e), t ++ [Print (outer_line e)]).
Proof. destruct e as [[] m]; reflexivity. Qed.

Lemma returned_after (t : list effect) (m : M unit) :
  returned (after t m) = returned m.
Proof. reflexivity. Qed.

Lemma ends_with_after (t : list effect) (m : M unit) (r : response)
    (cs : list call) :
  ends_with m r cs -> ends_with (after t m) r (calls_of t ++ cs).
Proof.
  intros [Hr Hc]. split; [ exact Hr | ].
  now rewrite snd_after, calls_of_app, Hc.
Qed.

Lemma create_folder_fails (w : World) (cfg : config)
    (folder_key readme : str) (e : exn) :
  put_object w = Fails e ->
  create_folder w cfg folder_key readme =
    if is_ClientError e
    then (Return (respond 500
            (error_body ("Failed to create S3 folder: " +++ msg e))),
          [Call (PutObject (s3_bucket_name cfg) (folder_key +++ "README.md")
                   readme "text/markdown");
           Print ("Error creando carpeta S3: " +++ msg e)])
    else (Raise e,
          [Call (PutObject (s3_bucket_name cfg) (folder_key +++ "README.md")
                   readme "text/markdown")]).
Proof.
  intro H. unfold create_folder, invoke. rewrite H.
  destruct e as [[] m]; reflexivity.
Qed.

Lemma create_index_exists_fails (w : World) (index_name : str) (e : exn) :
  indices_exists w = Fails e ->
  create_index w index_name =
    (Return (respond 500
       (error_body ("Failed to create OpenSearch index: " +++ msg e))),
     [Print ("Creating OpenSearch index: " +++ index_name);
      Call (IndicesExists index_name);
      Print ("Error creating OpenSearch index: " +++ msg e)]).
Proof. intro H. unfold create_index, invoke. rewrite H. reflexivity. Qed.

Lemma create_index_create_fails (w : World) (index_name : str) (e : exn) :
  indices_exists w = Ok false ->
  indices_create w = Fails e ->
  create_index w index_name =
    (Return (respond 500
       (error_body ("Failed to create OpenSearch index: " +++ msg e))),
     [Print ("Creating OpenSearch index: " +++ index_name);
      Call (IndicesExists index_name);
      Call (IndicesCreate index_name index_body);
      Print ("Error creating OpenSearch index: " +++ msg e)]).
Proof.
  intros H1 H2. unfold create_index, invoke. rewrite H1, H2. reflexivity.
Qed.

Lemma create_kb_fails (w : World) (cfg : config) (client_id kb_name : str)
    (e : exn) :
  create_knowledge_base w = Fails e ->
  create_kb w cfg client_id kb_name =
    if is_ClientError e
    then (Return (respond 500
            (error_body ("Failed to create Knowledge Base: " +++ msg e))),
          [Print ("Creating Knowledge Base: " +++ kb_name);
           Call (kb_request cfg client_id kb_name);
           Print ("Error creando Knowledge Base: " +++ msg e)])
    else (Raise e,
          [Print ("Creating Knowledge Base: " +++ kb_name);
           Call (kb_request cfg client_id kb_name)]).
Proof.
  intro H. unfold create_kb, invoke. rewrite H.
  destruct e as [[] m]; reflexivity.
Qed.

Lemma create_ds_other_error (w : World) (cfg : config)
    (client_id folder_key kb_id : str) (e : exn) :
  create_data_source w = Fails e ->
  is_ClientError e = false ->
  create_ds w cfg client_id folder_key kb_id =
    (Raise e,
     [Print ("Creating Data Source for S3 prefix: " +++ folder_key);
      Call (ds_request cfg client_id folder_key kb_id)]).
Proof.
  intros H He. unfold create_ds, invoke. rewrite H.
  destruct e as [[] m]; try discriminate He; reflexivity.
Qed.

Lemma calls_of_cleanup_log (r : reply unit) : calls_of (cleanup_log r) = [].
Proof. destruct r as [[] | e]; reflexivity. Qed.

(** The index step, when it completes, has made the calls [index_calls]. *)
Lemma create_index_ready_calls (w : World) (index_name : str) :
  index_ready w ->
  exists t, create_index w index_name = (Normal tt, t)
            /\ calls_of t = index_calls w index_name.
Proof.
  unfold index_calls. intros [H | (H & r & Hr)]; eexists; rewrite H; split;
    [ apply (create_index_present w index_name H) | reflexivity
    | apply (create_index_absent w index_name r H Hr) | reflexivity ].
Qed.

(* ===================================================================== *)
(** ** Every invocation has one of the endings                            *)
(* ===================================================================== *)

Lemma register_runs (w : World) (cfg : config) (client_id : str) :
  exists r cs,
    register_run w cfg client_id r cs
    /\ ends_with
         (try_except
            (register w cfg client_id (client_id +++ "/") (now w))
            outer_clauses) r cs.
Proof.
  unfold register.
  destruct (create_knowledge_base w) as [kb_id | e] eqn:Hkb.
  - rewrite (create_kb_ok w cfg _ _ kb_id Hkb), bind_normal.
    destruct (create_data_source w) as [ds_id | e] eqn:Hds.
    + rewrite (create_ds_ok w cfg _ _ kb_id ds_id Hds), bind_normal.
      eexists; eexists; split;
        [ apply (@run_created w cfg client_id kb_id ds_id Hkb Hds)
        | split; reflexivity ].
    + exists (guarded_answer "Failed to create Data Source: " e).
      eexists; split;
        [ apply (@run_ds_failed w cfg client_id kb_id e Hkb Hds) | ].
      unfold guarded_answer.
      destruct (is_ClientError e) eqn:He.
      * rewrite (create_ds_client_error w cfg _ _ kb_id e Hds He).
        cbn [bind]. rewrite try_except_after, try_except_return.
        split; [ reflexivity | ].
        rewrite snd_after. cbn [snd].
        rewrite !calls_of_app, calls_of_cleanup_log. reflexivity.
      * rewrite (create_ds_other_error w cfg _ _ kb_id e Hds He).
        cbn [bind]. rewrite try_except_after, outer_clauses_raise.
        split; reflexivity.
  - exists (guarded_answer "Failed to create Knowledge Base: " e).
    eexists; split; [ apply (@run_kb_failed w cfg client_id e Hkb) | ].
    rewrite (create_kb_fails w cfg _ _ e Hkb). unfold guarded_answer.
    destruct (is_ClientError e); cbn [bind];
      rewrite ?outer_clauses_raise; split; reflexivity.
Qed.

Lemma provision_runs (w : World) (cfg : config) (client_id : str) :
  exists r cs,
    provision_run w cfg client_id r cs
    /\ ends_with (try_except (provision w cfg client_id) outer_clauses) r cs.
Proof.
  unfold provision.
  destruct (put_object w) as [[] | e] eqn:Hput.
  - rewrite (create_folder_ok w cfg _ _ Hput), bind_normal.
    destruct (indices_exists w) as [[ | ] | e] eqn:Hex.
    + (* the index exists *)
      assert (Hready : index_ready w) by (left; exact Hex).
      destruct (register_runs w cfg client_id) as (r & cs & Hrun & Hend).
      exists r. eexists. split;
        [ apply (@run_registered w cfg client_id r cs Hput Hready Hrun) | ].
      rewrite (create_index_present w _ Hex), bind_normal.
      rewrite !try_except_after, after_after.
      unfold index_calls. rewrite Hex.
      exact (ends_with_after _ _ _ _ Hend).
    + destruct (indices_create w) as [created | e] eqn:Hcr.
      * assert (Hready : index_ready w)
          by (right; split; [ exact Hex | now exists created ]).
        destruct (register_runs w cfg client_id) as (r & cs & Hrun & Hend).
        exists r. eexists. split;
          [ apply (@run_registered w cfg client_id r cs Hput Hready Hrun) | ].
        rewrite (create_index_absent w _ created Hex Hcr), bind_normal.
        rewrite !try_except_after, after_after.
        unfold index_calls. rewrite Hex.
        exact (ends_with_after _ _ _ _ Hend).
      * eexists; eexists; split.
        -- apply (@run_index_failed w cfg client_id e Hput).
           right; split; [ exact Hex | exact Hcr ].
        -- rewrite (create_index_create_fails w _ e Hex Hcr).
           unfold index_calls. rewrite Hex. split; reflexivity.
    + eexists; eexists; split.
      * apply (@run_index_failed w cfg client_id e Hput). left; exact Hex.
      * rewrite (create_index_exists_fails w _ e Hex).
        unfold index_calls. rewrite Hex. split; reflexivity.
  - exists (guarded_answer "Failed to create S3 folder: " e).
    eexists; split; [ apply (@run_storage_failed w cfg client_id e Hput) | ].
    rewrite (create_folder_fails w cfg _ _ e Hput). unfold guarded_answer.
    destruct (is_ClientError e); cbn [bind];
      rewrite ?outer_clauses_raise; split; reflexivity.
Qed.

(** Lines 17-18 either yield the normalized identifier of a request or
    raise, without any effect. *)
Lemma read_client_id_cases (U : UnicodeData) (event : Event) :
  (exists s, requests event s)
  \/ (exists e, read_client_id U event = raise e).
Proof.
  unfold read_client_id, event_getitem_body, requests.
  destruct (event_body event) as [[ | err | v] | ];
    try (right; eexists; reflexivity).
  destruct v as [ | b | z | f | x | l | entries ];
    try (right; eexists; reflexivity).
  destruct (dict_get entries "client_id") as [x | ] eqn:Hget.
  - destruct x as [ | b | z | f | x | l | d ];
      try (right; eexists; rewrite bind_pure; cbn [json_loads];
           rewrite bind_pure; cbn [getitem]; rewrite Hget; reflexivity).
    left. exists x, entries. split; [ reflexivity | exact Hget ].
  - right; eexists. rewrite bind_pure. cbn [json_loads].
    rewrite bind_pure. cbn [getitem]. rewrite Hget. reflexivity.
Qed.

Lemma read_config_complete (w : World) :
  first_missing (environ w) = None -> exists cfg, read_config w = pure cfg.
Proof.
  unfold first_missing, required_variables, read_config, os_environ, is_unset.
  cbn [find].
  repeat match goal with
  | |- context [env_lookup (environ w) ?v] =>
      destruct (env_lookup (environ w) v);
      [ rewrite ?bind_pure | discriminate ]
  end.
  intros _. eexists; reflexivity.
Qed.

Lemma workflow_clients_fail (w : World) (cfg : config) (client_id : str)
    (e : exn) :
  read_config w = pure cfg ->
  clients w = Fails e ->
  workflow w client_id = (Raise e, startup_lines cfg client_id).
Proof.
  intros Hcfg Hcl. unfold workflow. rewrite Hcfg, bind_pure.
  unfold connect. rewrite Hcl. reflexivity.
Qed.

(** Every invocation returns, with the answer and the calls of one of the
    endings. *)
Lemma lambda_handler_runs (U : UnicodeData) (event : Event) (w : World) :
  exists r cs,
    run U event w r cs /\ ends_with (lambda_handler U event w) r cs.
Proof.
  destruct (read_client_id_cases U event) as [(s & Hreq) | (e & Hread)].
  2: { exists (outer_answer e), []. split;
         [ apply (@run_unreadable U event w e Hread) | ].
       unfold lambda_handler. rewrite Hread. cbn [raise bind].
       rewrite outer_clauses_raise. split; reflexivity. }
  destruct (well_formed U (normalize U s)) eqn:Hwf.
  2: { unfold lambda_handler.
       rewrite (read_client_id_requests U event s Hreq), bind_pure.
       destruct (Nat.lt_ge_cases (List.length (normalize U s)) 2)
         as [Hlen | Hlen].
       - eexists; eexists; split;
           [ apply (@run_too_short U event w s Hreq Hlen) | ].
         rewrite (validate_short U _ Hlen). split; reflexivity.
       - assert (Hal : isalnum U
                   (replace (replace (normalize U s) "-" "") "_" "") = false).
         { unfold well_formed in Hwf. apply Nat.leb_le in Hlen.
           rewrite Hlen in Hwf. exact Hwf. }
         eexists; eexists; split;
           [ apply (@run_bad_characters U event w s Hreq Hlen Hal) | ].
         rewrite (validate_charset U _ Hlen Hal). split; reflexivity. }
  rewrite (lambda_handler_workflow U event w s Hreq Hwf).
  destruct (first_missing (environ w)) as [k | ] eqn:Hmiss.
  { exists (outer_answer (key_error k)), []. split;
      [ apply (@run_no_config U event w s k Hreq Hwf Hmiss) | ].
    unfold workflow. rewrite (read_config_missing w k Hmiss).
    cbn [raise bind]. rewrite outer_clauses_raise. split; reflexivity. }
  destruct (read_config_complete w Hmiss) as [cfg Hcfg].
  destruct (clients w) as [[] | e] eqn:Hcl.
  2: { exists (outer_answer e), []. split;
         [ apply (@run_no_clients U event w s cfg e Hreq Hwf Hcfg Hcl) | ].
       rewrite (workflow_clients_fail w cfg _ e Hcfg Hcl).
       rewrite outer_clauses_raise. split; reflexivity. }
  assert (Hready : ready U event w s cfg) by (repeat split; assumption).
  rewrite (workflow_startup w cfg _ Hcfg Hcl), try_except_after.
  destruct (list_knowledge_bases w) as [l | e] eqn:Hl.
  - destruct (find (fun x => str_eqb (name x) ("kb-" +++ normalize U s)) l)
      as [kb | ] eqn:Hfind.
    + eexists; eexists; split;
        [ apply (@run_conflict U event w s cfg l kb Hready Hl Hfind) | ].
      rewrite (check_existing_conflict _ w l kb Hl Hfind).
      split; reflexivity.
    + assert (Hno : no_conflict w (normalize U s)).
      { unfold no_conflict. rewrite Hl. intros kb Hin Hname.
        pose proof (find_none _ _ Hfind kb Hin) as Hf. cbn beta in Hf.
        rewrite Hname, str_eqb_refl in Hf. discriminate. }
      destruct (provision_runs w cfg (normalize U s))
        as (r & cs & Hrun & Hend).
      exists r. eexists; split;
        [ apply (@run_provisioned U event w s cfg r cs Hready Hno Hrun) | ].
      rewrite (check_existing_clear _ w l Hl Hfind), bind_normal.
      rewrite try_except_after, after_after.
      exact (ends_with_after
               (startup cfg (normalize U s) ++ [Call ListKnowledgeBases])
               _ r cs Hend).
  - destruct (is_ClientError e) eqn:He.
    + assert (Hno : no_conflict w (normalize U s))
        by (unfold no_conflict; rewrite Hl; exact He).
      destruct (provision_runs w cfg (normalize U s))
        as (r & cs & Hrun & Hend).
      exists r. eexists; split;
        [ apply (@run_provisioned U event w s cfg r cs Hready Hno Hrun) | ].
      rewrite (check_existing_client_error _ w e Hl He), bind_normal.
      rewrite try_except_after, after_after.
      exact (ends_with_after
               (startup cfg (normalize U s)
                ++ [Call ListKnowledgeBases;
                    Print ("Warning checking existing KBs: " +++ msg e)])
               _ r cs Hend).
    + eexists; eexists; split;
        [ apply (@run_listing_failed U event w s cfg e Hready Hl He) | ].
      rewrite (check_existing_other_error _ w e Hl He). cbn [bind].
      rewrite outer_clauses_raise. split; reflexivity.
Qed.

Lemma ends_with_returns (m : M unit) (r : response) (cs : list call) :
  ends_with m r cs -> m = (Return r, snd m) /\ calls_of (snd m) = cs.
Proof.
  destruct m as [[[] | r' | e] t]; intros [Hr Hc]; try discriminate Hr.
  injection Hr as <-. split; [ reflexivity | exact Hc ].
Qed.

Lemma ends_with_unique (m : M unit) (r r' : response) (cs cs' : list call) :
  ends_with m r cs -> ends_with m r' cs' -> r = r' /\ cs = cs'.
Proof. intros [Hr Hc] [Hr' Hc']. split; congruence. Qed.

Lemma status_outer_answer (e : exn) :
  statusCode (outer_answer e) = 400%Z \/ statusCode (outer_answer e) = 500%Z.
Proof. destruct e as [[] m]; cbn; auto. Qed.

Lemma status_guarded_answer (text : str) (e : exn) :
  statusCode (guarded_answer text e) = 400%Z
  \/ statusCode (guarded_answer text e) = 500%Z.
Proof.
  unfold guarded_answer. destruct (is_ClientError e);
    [ right; reflexivity | apply status_outer_answer ].
Qed.

Lemma shape_error_400 (text : str) :
  answer_shape (respond 400 (error_body text)).
Proof.
  split; [ reflexivity | ]. exists (error_body text).
  split; [ reflexivity | ].
  right. split; [ left; reflexivity | ].
  split; [ now exists text | reflexivity ].
Qed.

Lemma shape_error_500 (text : str) :
  answer_shape (respond 500 (error_body text)).
Proof.
  split; [ reflexivity | ]. exists (error_body text).
  split; [ reflexivity | ].
  right. split; [ right; right; left; reflexivity | ].
  split; [ now exists text | reflexivity ].
Qed.

Lemma shape_conflict (client_id : str) (kb : kb_summary) :
  answer_shape (conflict_response client_id kb).
Proof.
  split; [ reflexivity | ]. eexists. split; [ reflexivity | ].
  right. split; [ right; left; reflexivity | ].
  split; [ eexists; reflexivity | reflexivity ].
Qed.

Lemma shape_success (cfg : config)
    (client_id folder_key timestamp kb_id ds_id : str) :
  answer_shape
    (respond 200
       (success_response cfg client_id folder_key timestamp kb_id ds_id)).
Proof.
  split; [ reflexivity | ]. eexists. split; [ reflexivity | ].
  left. split; [ reflexivity | ]. split; reflexivity.
Qed.

Lemma shape_outer_answer (e : exn) : answer_shape (outer_answer e).
Proof.
  destruct e as [[] m]; unfold outer_answer; cbn [cls msg];
    first [ apply shape_error_400 | apply shape_error_500 ].
Qed.

Lemma shape_guarded_answer (text : str) (e : exn) :
  answer_shape (guarded_answer text e).
Proof.
  unfold guarded_answer. destruct (is_ClientError e);
    [ apply shape_error_500 | apply shape_outer_answer ].
Qed.

Lemma shape_register_run (w : World) (cfg : config) (client_id : str)
    (r : response) (cs : list call) :
  register_run w cfg client_id r cs -> answer_shape r.
Proof.
  intros [ e _ | kb_id e _ _ | kb_id ds_id _ _ ].
  - apply shape_guarded_answer.
  - apply shape_guarded_answer.
  - apply shape_success.
Qed.

Lemma shape_provision_run (w : World) (cfg : config) (client_id : str)
    (r : response) (cs : list call) :
  provision_run w cfg client_id r cs -> answer_shape r.
Proof.
  intros [ e _ | e _ _ | r' cs' _ _ Hr ].
  - apply shape_guarded_answer.
  - apply shape_error_500.
  - apply (shape_register_run w cfg client_id r' cs' Hr).
Qed.

(** X1. Whatever the event and the world, the handler returns a response
    with the CORS headers of lines 9-14 and status 200, 400, 409 or 500,
    whose body is the JSON text of a dict: with [success] true and no
    [error] under status 200, with an [error] text and no [success] under
    the other three. *)
Theorem every_answer_well_formed (U : UnicodeData) (event : Event)
    (w : World) :
  exists r t,
    lambda_handler U event w = (Return r, t) /\ answer_shape r.
Proof.
  destruct (lambda_handler_runs U event w) as (r & cs & Hrun & Hend).
  apply ends_with_returns in Hend as [Heq _].
  exists r, (snd (lambda_handler U event w)). split; [ exact Heq | ].
  clear Heq. destruct Hrun as
    [ e _ | s _ _ | s _ _ _ | s k _ _ _ | s cfg e _ _ _ _
    | s cfg l kb _ _ _ | s cfg e _ _ _ | s cfg r cs _ _ Hp ].
  - apply shape_outer_answer.
  - apply shape_error_400.
  - apply shape_error_400.
  - apply shape_outer_answer.
  - apply shape_outer_answer.
  - apply shape_conflict.
  - apply shape_outer_answer.
  - apply (shape_provision_run w cfg _ r cs Hp).
Qed.

(** X2. In every invocation the calls follow the order of the steps, each
    at most once: the listing, the marker object, [indices.exists],
    [indices.create], the knowledge base, the data source, the delete. *)
Theorem calls_follow_the_steps (U : UnicodeData) (event : Event)
    (w : World) :
  increasing (map step_rank (calls_of (snd (lambda_handler U event w)))).
Proof.
  destruct (lambda_handler_runs U event w) as (r & cs & Hrun & [_ ->]).
  destruct Hrun as
    [ e _ | s _ _ | s _ _ _ | s k _ _ _ | s cfg e _ _ _ _
    | s cfg l kb _ _ _ | s cfg e _ _ _ | s cfg r cs _ _ Hp ];
    try exact I.
  destruct Hp as [ e _ | e _ _ | r cs _ _ Hr ].
  - cbn. lia.
  - unfold index_calls.
    destruct (indices_exists w) as [[ | ] | x]; cbn; lia.
  - unfold index_calls.
    destruct Hr as [ e _ | kb_id e _ _ | kb_id ds_id _ _ ];
      try destruct (is_ClientError e);
      destruct (indices_exists w) as [[ | ] | x]; cbn; lia.
Qed.

Lemma status_outer_answer_not (e : exn) (status : Z) :
  status <> 400%Z -> status <> 500%Z -> statusCode (outer_answer e) <> status.
Proof.
  intros H4 H5 H. destruct (status_outer_answer e); congruence.
Qed.

Lemma status_guarded_answer_not (text : str) (e : exn) (status : Z) :
  status <> 400%Z -> status <> 500%Z ->
  statusCode (guarded_answer text e) <> status.
Proof.
  intros H4 H5 H. destruct (status_guarded_answer text e); congruence.
Qed.

(** X3. An answer of status 200 is returned only when every step
    succeeded: the request reached step 1 without conflict, the marker
    object was written, the index exists or was created, and the knowledge
    base and its data source were created; the answer then carries their
    identifiers, and the calls are those of the five steps, without any
    delete. *)
Theorem success_requires_every_step (U : UnicodeData) (event : Event)
    (w : World) (r : response) :
  returned (lambda_handler U event w) = Some r ->
  statusCode r = 200%Z ->
  exists s cfg kb_id ds_id,
    ready U event w s cfg
    /\ no_conflict w (normalize U s)
    /\ put_object w = Ok tt
    /\ index_ready w
    /\ create_knowledge_base w = Ok kb_id
    /\ create_data_source w = Ok ds_id
    /\ r = respond 200
             (success_response cfg (normalize U s) (normalize U s +++ "/")
                (now w) kb_id ds_id)
    /\ calls_of (snd (lambda_handler U event w)) =
         ListKnowledgeBases
         :: folder_request cfg (normalize U s)
         :: index_calls w (normalize U s +++ "_index")
         ++ [ kb_request cfg (normalize U s) ("kb-" +++ normalize U s);
              ds_request cfg (normalize U s) (normalize U s +++ "/") kb_id ].
Proof.
  intros Hret Hstatus.
  destruct (lambda_handler_runs U event w) as (r' & cs & Hrun & [Hr ->]).
  rewrite Hr in Hret. injection Hret as ->.
  assert (H4 : 200%Z <> 400%Z) by discriminate.
  assert (H5 : 200%Z <> 500%Z) by discriminate.
  destruct Hrun as
    [ e _ | s _ _ | s _ _ _ | s k _ _ _ | s cfg e _ _ _ _
    | s cfg l kb _ _ _ | s cfg e _ _ _ | s cfg r cs Hready Hno Hp ];
    try (now destruct (status_outer_answer_not _ 200%Z H4 H5 Hstatus));
    try discriminate Hstatus.
  destruct Hp as [ e _ | e _ _ | r cs Hput Hidx Hreg ];
    try (now destruct (status_guarded_answer_not _ _ 200%Z H4 H5 Hstatus));
    try discriminate Hstatus.
  destruct Hreg as [ e _ | kb_id e _ _ | kb_id ds_id Hkb Hds ];
    try (now destruct (status_guarded_answer_not _ _ 200%Z H4 H5 Hstatus)).
  exists s, cfg, kb_id, ds_id. repeat split; try assumption; apply Hready.
Qed.

Lemma success_requires_every_step_witness :
  create_data_source sample_world = Ok (of_string "DS12345678")
  /\ exists s cfg kb_id ds_id,
       ready latin1 (request "Acme-01") sample_world s cfg
       /\ no_conflict sample_world (normalize latin1 s)
       /\ put_object sample_world = Ok tt
       /\ index_ready sample_world
       /\ create_knowledge_base sample_world = Ok kb_id
       /\ create_data_source sample_world = Ok ds_id
       /\ respond 200
            (success_response sample_config "acme-01" "acme-01/"
               "2025-01-01 00:00:00 UTC" "KB12345678" "DS12345678")
          = respond 200
              (success_response cfg (normalize latin1 s)
                 (normalize latin1 s +++ "/") (now sample_world) kb_id ds_id)
       /\ calls_of (snd (lambda_handler latin1 (request "Acme-01")
                           sample_world)) =
            ListKnowledgeBases
            :: folder_request cfg (normalize latin1 s)
            :: index_calls sample_world (normalize latin1 s +++ "_index")
            ++ [ kb_request cfg (normalize latin1 s)
                   ("kb-" +++ normalize latin1 s);
                 ds_request cfg (normalize latin1 s)
                   (normalize latin1 s +++ "/") kb_id ].
Proof.
  split; [ reflexivity | ].
  apply (success_requires_every_step latin1 (request "Acme-01") sample_world
           (respond 200
              (success_response sample_config "acme-01" "acme-01/"
                 "2025-01-01 00:00:00 UTC" "KB12345678" "DS12345678"))).
  - vm_compute; reflexivity.
  - reflexivity.
Defined.

Lemma index_calls_cases (w : World) (index_name : str) (c : call) :
  In c (index_calls w index_name) ->
  c = IndicesExists index_name \/ c = IndicesCreate index_name index_body.
Proof.
  unfold index_calls. destruct (indices_exists w) as [[ | ] | e];
    cbn [In]; intuition.
Qed.

(** X4. The handler never deletes a knowledge base other than the one it
    created in the same invocation, and deletes that one only when the
    data-source call raised a [ClientError]. *)
Theorem delete_only_own_knowledge_base (U : UnicodeData) (event : Event)
    (w : World) (kb_id : str) :
  In (DeleteKnowledgeBase kb_id)
     (calls_of (snd (lambda_handler U event w))) ->
  create_knowledge_base w = Ok kb_id
  /\ exists e, create_data_source w = Fails e /\ is_ClientError e = true.
Proof.
  destruct (lambda_handler_runs U event w) as (r & cs & Hrun & [_ ->]).
  destruct Hrun as
    [ e _ | s _ _ | s _ _ _ | s k _ _ _ | s cfg e _ _ _ _
    | s cfg l kb _ _ _ | s cfg e _ _ _ | s cfg r cs _ _ Hp ];
    cbn [In]; try tauto; try (intros [H | []]; discriminate H).
  intros [H | Hin]; [ discriminate H | ].
  destruct Hp as [ e _ | e _ _ | r cs _ _ Hreg ].
  - destruct Hin as [H | []]. discriminate H.
  - destruct Hin as [H | Hin]; [ discriminate H | ].
    destruct (index_calls_cases _ _ _ Hin) as [H | H]; discriminate H.
  - destruct Hin as [H | Hin]; [ discriminate H | ].
    apply in_app_or in Hin as [Hin | Hin].
    { destruct (index_calls_cases _ _ _ Hin) as [H | H]; discriminate H. }
    destruct Hreg as [ e _ | kb e Hkb Hds | kb ds _ _ ].
    + destruct Hin as [H | []]. discriminate H.
    + destruct (is_ClientError e) eqn:He; cbn [In app] in Hin.
      * destruct Hin as [H | [H | [H | []]]]; try discriminate H.
        injection H as ->. split; [ exact Hkb | now exists e ].
      * destruct Hin as [H | [H | []]]; discriminate H.
    + destruct Hin as [H | [H | []]]; discriminate H.
Qed.

Lemma delete_only_own_knowledge_base_witness :
  create_knowledge_base world_ds_denied = Ok (of_string "KB12345678")
  /\ exists e,
       create_data_source world_ds_denied = Fails e
       /\ is_ClientError e = true.
Proof.
  apply (delete_only_own_knowledge_base latin1 (request "acme-01")
           world_ds_denied "KB12345678").
  vm_compute. tauto.
Defined.

Lemma register_run_scoped (w : World) (cfg : config) (client_id : str)
    (r : response) (cs : list call) (c : call) :
  register_run w cfg client_id r cs -> In c cs -> scoped w cfg client_id c.
Proof.
  intros [ e _ | kb_id e Hkb _ | kb_id ds_id Hkb _ ] Hin.
  - destruct Hin as [<- | []]. cbn. repeat split.
  - destruct (is_ClientError e); cbn [In app] in Hin.
    + destruct Hin as [<- | [<- | [<- | []]]]; cbn; repeat split;
        exact Hkb.
    + destruct Hin as [<- | [<- | []]]; cbn; repeat split; exact Hkb.
  - destruct Hin as [<- | [<- | []]]; cbn; repeat split; exact Hkb.
Qed.

Lemma index_calls_scoped (w : World) (cfg : config) (client_id : str)
    (c : call) :
  In c (index_calls w (client_id +++ "_index")) -> scoped w cfg client_id c.
Proof.
  intro Hin. destruct (index_calls_cases _ _ _ Hin) as [-> | ->]; cbn;
    repeat split.
Qed.

Lemma provision_run_scoped (w : World) (cfg : config) (client_id : str)
    (r : response) (cs : list call) (c : call) :
  provision_run w cfg client_id r cs -> In c cs -> scoped w cfg client_id c.
Proof.
  intros [ e _ | e _ _ | r' cs' _ _ Hreg ] Hin.
  - destruct Hin as [<- | []]. cbn. repeat split.
  - destruct Hin as [<- | Hin]; [ cbn; repeat split | ].
    apply (index_calls_scoped w cfg client_id c Hin).
  - destruct Hin as [<- | Hin]; [ cbn; repeat split | ].
    apply in_app_or in Hin as [Hin | Hin].
    + apply (index_calls_scoped w cfg client_id c Hin).
    + apply (register_run_scoped w cfg client_id r' cs' c Hreg Hin).
Qed.

(** X5. Every call of an invocation is made for a request that reached
    step 1 (identifier accepted, configuration complete, clients built) and
    bears the names derived from its identifier: the key [<id>/README.md]
    in the configured bucket, the index [<id>_index], the knowledge base
    [kb-<id>] on that index, the data source on the prefix [<id>/] of the
    knowledge base just created, the delete of that knowledge base. *)
Theorem every_call_scoped (U : UnicodeData) (event : Event) (w : World)
    (c : call) :
  In c (calls_of (snd (lambda_handler U event w))) ->
  exists s cfg,
    ready U event w s cfg /\ scoped w cfg (normalize U s) c.
Proof.
  destruct (lambda_handler_runs U event w) as (r & cs & Hrun & [_ ->]).
  destruct Hrun as
    [ e _ | s _ _ | s _ _ _ | s k _ _ _ | s cfg e _ _ _ _
    | s cfg l kb Hready _ _ | s cfg e Hready _ _
    | s cfg r cs Hready _ Hp ];
    cbn [In]; try tauto.
  - intros [<- | []]. exists s, cfg. split; [ exact Hready | exact I ].
  - intros [<- | []]. exists s, cfg. split; [ exact Hready | exact I ].
  - intros [<- | Hin]; exists s, cfg; (split; [ exact Hready | ]).
    + exact I.
    + apply (provision_run_scoped w cfg _ r cs c Hp Hin).
Qed.

Lemma every_call_scoped_witness :
  exists s cfg,
    ready latin1 (request "Acme-01") sample_world s cfg
    /\ scoped sample_world cfg (normalize latin1 s)
         (IndicesCreate "acme-01_index" index_body).
Proof.
  apply (every_call_scoped latin1 (request "Acme-01") sample_world
           (IndicesCreate "acme-01_index" index_body)).
  vm_compute. tauto.
Defined.

(** X6. An answer of status 409 is returned only when the listing call
    succeeded and holds a record named [kb-<id>]; the answer then names
    the first such record, and the listing is the only call made. *)
Theorem conflict_only_if_listed (U : UnicodeData) (event : Event)
    (w : World) (r : response) :
  returned (lambda_handler U event w) = Some r ->
  statusCode r = 409%Z ->
  exists s cfg l kb,
    ready U event w s cfg
    /\ list_knowledge_bases w = Ok l
    /\ In kb l
    /\ name kb = "kb-" +++ normalize U s
    /\ r = conflict_response (normalize U s) kb
    /\ calls_of (snd (lambda_handler U event w)) = [ListKnowledgeBases].
Proof.
  intros Hret Hstatus.
  destruct (lambda_handler_runs U event w) as (r' & cs & Hrun & [Hr ->]).
  rewrite Hr in Hret. injection Hret as ->.
  assert (H4 : 409%Z <> 400%Z) by discriminate.
  assert (H5 : 409%Z <> 500%Z) by discriminate.
  destruct Hrun as
    [ e _ | s _ _ | s _ _ _ | s k _ _ _ | s cfg e _ _ _ _
    | s cfg l kb Hready Hl Hfind | s cfg e _ _ _ | s cfg r cs _ _ Hp ];
    try (now destruct (status_outer_answer_not _ 409%Z H4 H5 Hstatus));
    try discriminate Hstatus.
  - exists s, cfg, l, kb. apply find_some in Hfind as [Hin Hname].
    apply str_eqb_eq in Hname.
    split; [ exact Hready | ]. split; [ exact Hl | ].
    split; [ exact Hin | ]. split; [ exact Hname | ]. split; reflexivity.
  - destruct Hp as [ e _ | e _ _ | r cs _ _ Hreg ];
      try (now destruct (status_guarded_answer_not _ _ 409%Z H4 H5 Hstatus));
      try discriminate Hstatus.
    destruct Hreg as [ e _ | kb_id e _ _ | kb_id ds_id _ _ ];
      try (now destruct (status_guarded_answer_not _ _ 409%Z H4 H5 Hstatus)).
    discriminate Hstatus.
Qed.

Lemma conflict_only_if_listed_witness :
  exists s cfg l kb,
    ready latin1 (request "Acme-01") world_with_acme s cfg
    /\ list_knowledge_bases world_with_acme = Ok l
    /\ In kb l
    /\ name kb = "kb-" +++ normalize latin1 s
    /\ conflict_response "acme-01" acme_kb
       = conflict_response (normalize latin1 s) kb
    /\ calls_of (snd (lambda_handler latin1 (request "Acme-01")
                        world_with_acme)) = [ListKnowledgeBases].
Proof.
  apply (conflict_only_if_listed latin1 (request "Acme-01") world_with_acme
           (conflict_response "acme-01" acme_kb)).
  - vm_compute; reflexivity.
  - reflexivity.
Defined.

(* ===================================================================== *)
(** ** The failure policy of each step                                    *)
(* ===================================================================== *)

(** A request that passes step 1 ends as steps 2 to 5 end. *)
Lemma lambda_handler_provision_ends (U : UnicodeData) (event : Event)
    (w : World) (s : str) (cfg : config) (r : response) (cs : list call) :
  ready U event w s cfg ->
  no_conflict w (normalize U s) ->
  ends_with (try_except (provision w cfg (normalize U s)) outer_clauses)
    r cs ->
  ends_with (lambda_handler U event w) r (ListKnowledgeBases :: cs).
Proof.
  intros (Hreq & Hwf & Hcfg & Hcl) Hno Hend.
  rewrite (lambda_handler_steps U event w s cfg Hreq Hwf Hcfg Hcl).
  destruct (check_existing_pass _ w Hno) as (t1 & H1 & Hc1).
  rewrite H1, bind_normal, try_except_after, after_after.
  apply (ends_with_after (startup cfg (normalize U s) ++ t1)) in Hend.
  rewrite calls_of_app, Hc1 in Hend. exact Hend.
Qed.

Lemma index_ready_not_failing (w : World) (e : exn) :
  index_ready w ->
  indices_exists w = Fails e
  \/ (indices_exists w = Ok false /\ indices_create w = Fails e) ->
  False.
Proof.
  intros [H | (H & r & Hr)] [H' | (H' & Hr')]; congruence.
Qed.

(** X7. When the [put_object] call of step 2 raises, the invocation ends
    there: the answer is 500 with the storage message for a [ClientError]
    and the answer of the outer clauses for any other exception, and
    neither the index, nor the knowledge base, nor the data source is
    touched. *)
Theorem storage_failure_aborts (U : UnicodeData) (event : Event)
    (w : World) (s : str) (cfg : config) (e : exn) :
  ready U event w s cfg ->
  no_conflict w (normalize U s) ->
  put_object w = Fails e ->
  returned (lambda_handler U event w) =
    Some (if is_ClientError e
          then respond 500
                 (error_body ("Failed to create S3 folder: " +++ msg e))
          else outer_answer e)
  /\ calls_of (snd (lambda_handler U event w)) =
       [ ListKnowledgeBases;
         PutObject (s3_bucket_name cfg)
           ((normalize U s +++ "/") +++ "README.md")
           ("# Knowledge Base para " +++ normalize U s) "text/markdown" ].
Proof.
  intros Hready Hno Hput.
  destruct (provision_runs w cfg (normalize U s)) as (r & cs & Hrun & Hend).
  apply (lambda_handler_provision_ends U event w s cfg r cs Hready Hno)
    in Hend.
  destruct Hrun as [ e0 H0 | e0 H0 _ | r' cs' H0 _ _ ];
    rewrite Hput in H0; try discriminate H0.
  injection H0 as <-. exact Hend.
Qed.

Lemma storage_failure_aborts_witness :
  returned (lambda_handler latin1 (request "Acme-01")
              (with_put_object (Fails denied) sample_world)) =
    Some (respond 500
            (error_body ("Failed to create S3 folder: " +++ msg denied)))
  /\ calls_of (snd (lambda_handler latin1 (request "Acme-01")
                      (with_put_object (Fails denied) sample_world))) =
       [ ListKnowledgeBases;
         PutObject "rag-uno-docs" "acme-01/README.md"
           "# Knowledge Base para acme-01" "text/markdown" ].
Proof.
  apply (storage_failure_aborts latin1 (request "Acme-01")
           (with_put_object (Fails denied) sample_world) "Acme-01"
           sample_config denied).
  - repeat split. eexists; split; reflexivity.
  - intros kb [].
  - reflexivity.
Defined.

(** X8. When [indices.exists], or [indices.create] after a negative
    [indices.exists], raises an exception of any class, the answer is 500
    with the index message; the marker object of step 2 stays (nothing is
    deleted) and no knowledge base is created. *)
Theorem index_failure_aborts (U : UnicodeData) (event : Event)
    (w : World) (s : str) (cfg : config) (e : exn) :
  ready U event w s cfg ->
  no_conflict w (normalize U s) ->
  put_object w = Ok tt ->
  indices_exists w = Fails e
  \/ (indices_exists w = Ok false /\ indices_create w = Fails e) ->
  returned (lambda_handler U event w) =
    Some (respond 500
            (error_body ("Failed to create OpenSearch index: " +++ msg e)))
  /\ calls_of (snd (lambda_handler U event w)) =
       [ ListKnowledgeBases;
         PutObject (s3_bucket_name cfg)
           ((normalize U s +++ "/") +++ "README.md")
           ("# Knowledge Base para " +++ normalize U s) "text/markdown";
         IndicesExists (normalize U s +++ "_index") ]
       ++ match indices_exists w with
          | Ok false =>
              [IndicesCreate (normalize U s +++ "_index") index_body]
          | _ => []
          end.
Proof.
  intros Hready Hno Hput Hfail.
  destruct (provision_runs w cfg (normalize U s)) as (r & cs & Hrun & Hend).
  apply (lambda_handler_provision_ends U event w s cfg r cs Hready Hno)
    in Hend.
  destruct Hrun as [ e0 H0 | e0 _ H0 | r' cs' _ H0 _ ].
  - rewrite Hput in H0. discriminate H0.
  - assert (e0 = e) as ->.
    { destruct Hfail as [H | (H & H')], H0 as [H1 | (H1 & H1')];
        congruence. }
    exact Hend.
  - destruct (index_ready_not_failing w e H0 Hfail).
Qed.

Lemma index_failure_aborts_witness :
  returned (lambda_handler latin1 (request "Acme-01")
              (with_indices_exists (Fails timed_out) sample_world)) =
    Some (respond 500
            (error_body
               ("Failed to create OpenSearch index: " +++ msg timed_out)))
  /\ calls_of (snd (lambda_handler latin1 (request "Acme-01")
                      (with_indices_exists (Fails timed_out) sample_world)))
     = [ ListKnowledgeBases;
         PutObject "rag-uno-docs" "acme-01/README.md"
           "# Knowledge Base para acme-01" "text/markdown";
         IndicesExists "acme-01_index" ].
Proof.
  apply (index_failure_aborts latin1 (request "Acme-01")
           (with_indices_exists (Fails timed_out) sample_world) "Acme-01"
           sample_config timed_out).
  - repeat split. eexists; split; reflexivity.
  - intros kb [].
  - reflexivity.
  - left; reflexivity.
Defined.

(** X9. When the [create_knowledge_base] call of step 4 raises, the
    invocation ends there: the answer is 500 with the knowledge-base
    message for a [ClientError] and the answer of the outer clauses for
    any other exception; no data source is created and nothing is
    deleted. *)
Theorem knowledge_base_failure_aborts (U : UnicodeData) (event : Event)
    (w : World) (s : str) (cfg : config) (e : exn) :
  ready U event w s cfg ->
  no_conflict w (normalize U s) ->
  put_object w = Ok tt ->
  index_ready w ->
  create_knowledge_base w = Fails e ->
  returned (lambda_handler U event w) =
    Some (if is_ClientError e
          then respond 500
                 (error_body ("Failed to create Knowledge Base: " +++ msg e))
          else outer_answer e)
  /\ calls_of (snd (lambda_handler U event w)) =
       ListKnowledgeBases
       :: folder_request cfg (normalize U s)
       :: index_calls w (normalize U s +++ "_index")
       ++ [kb_request cfg (normalize U s) ("kb-" +++ normalize U s)].
Proof.
  intros Hready Hno Hput Hidx Hkb.
  destruct (provision_runs w cfg (normalize U s)) as (r & cs & Hrun & Hend).
  apply (lambda_handler_provision_ends U event w s cfg r cs Hready Hno)
    in Hend.
  destruct Hrun as [ e0 H0 | e0 _ H0 | r' cs' _ _ Hreg ].
  - rewrite Hput in H0. discriminate H0.
  - destruct (index_ready_not_failing w e0 Hidx H0).
  - destruct Hreg as [ e0 H0 | kb_id e0 H0 _ | kb_id ds_id H0 _ ];
      rewrite Hkb in H0; try discriminate H0.
    injection H0 as <-. exact Hend.
Qed.

Lemma knowledge_base_failure_aborts_witness :
  returned (lambda_handler latin1 (request "Acme-01")
              (with_create_knowledge_base (Fails denied) sample_world)) =
    Some (respond 500
            (error_body ("Failed to create Knowledge Base: " +++ msg denied)))
  /\ calls_of (snd (lambda_handler latin1 (request "Acme-01")
                      (with_create_knowledge_base (Fails denied)
                         sample_world))) =
       ListKnowledgeBases
       :: folder_request sample_config "acme-01"
       :: index_calls sample_world "acme-01_index"
       ++ [kb_request sample_config "acme-01" "kb-acme-01"].
Proof.
  apply (knowledge_base_failure_aborts latin1 (request "Acme-01")
           (with_create_knowledge_base (Fails denied) sample_world)
           "Acme-01" sample_config denied).
  - repeat split. eexists; split; reflexivity.
  - intros kb [].
  - reflexivity.
  - right. split; [ reflexivity | eexists; reflexivity ].
  - reflexivity.
Defined.

(** X10. When the [create_data_source] call of step 5 raises an exception
    that is not a [ClientError], the answer is the one of the outer
    clauses and the data-source call is the last call: the knowledge base
    created in step 4 is not deleted. *)
Theorem data_source_other_failure_keeps_kb (U : UnicodeData)
    (event : Event) (w : World) (s : str) (cfg : config) (kb_id : str)
    (e : exn) :
  ready U event w s cfg ->
  no_conflict w (normalize U s) ->
  put_object w = Ok tt ->
  index_ready w ->
  create_knowledge_base w = Ok kb_id ->
  create_data_source w = Fails e ->
  is_ClientError e = false ->
  returned (lambda_handler U event w) = Some (outer_answer e)
  /\ calls_of (snd (lambda_handler U event w)) =
       ListKnowledgeBases
       :: folder_request cfg (normalize U s)
       :: index_calls w (normalize U s +++ "_index")
       ++ [ kb_request cfg (normalize U s) ("kb-" +++ normalize U s);
            ds_request cfg (normalize U s) (normalize U s +++ "/") kb_id ].
Proof.
  intros Hready Hno Hput Hidx Hkb Hds He.
  destruct (provision_runs w cfg (normalize U s)) as (r & cs & Hrun & Hend).
  apply (lambda_handler_provision_ends U event w s cfg r cs Hready Hno)
    in Hend.
  destruct Hrun as [ e0 H0 | e0 _ H0 | r' cs' _ _ Hreg ].
  - rewrite Hput in H0. discriminate H0.
  - destruct (index_ready_not_failing w e0 Hidx H0).
  - destruct Hreg as [ e0 H0 | kb e0 H0 H1 | kb ds H0 H1 ].
    + rewrite Hkb in H0. discriminate H0.
    + rewrite Hkb in H0. injection H0 as <-.
      rewrite Hds in H1. injection H1 as <-.
      unfold guarded_answer in Hend. rewrite He in Hend. exact Hend.
    + rewrite Hds in H1. discriminate H1.
Qed.

Lemma data_source_other_failure_keeps_kb_witness :
  returned (lambda_handler latin1 (request "Acme-01") world_ds_unreachable)
    = Some (outer_answer unreachable)
  /\ calls_of (snd (lambda_handler latin1 (request "Acme-01")
                      world_ds_unreachable)) =
       ListKnowledgeBases
       :: folder_request sample_config "acme-01"
       :: index_calls world_ds_unreachable "acme-01_index"
       ++ [ kb_request sample_config "acme-01" "kb-acme-01";
            ds_request sample_config "acme-01" "acme-01/" "KB12345678" ].
Proof.
  apply (data_source_other_failure_keeps_kb latin1 (request "Acme-01")
           world_ds_unreachable "Acme-01" sample_config "KB12345678"
           unreachable).
  - repeat split. eexists; split; reflexivity.
  - intros kb [].
  - reflexivity.
  - right. split; [ reflexivity | eexists; reflexivity ].
  - reflexivity.
  - reflexivity.
  - reflexivity.
Defined.

(** X11. When the listing call of step 1 raises an exception that is not a
    [ClientError], the answer is the one of the outer clauses and no later
    step runs. *)
Theorem listing_other_failure_aborts (U : UnicodeData) (event : Event)
    (w : World) (s : str) (cfg : config) (e : exn) :
  ready U event w s cfg ->
  list_knowledge_bases w = Fails e ->
  is_ClientError e = false ->
  lambda_handler U event w =
    (Return (outer_answer e),
     startup cfg (normalize U s)
     ++ [Call ListKnowledgeBases; Print (outer_line e)]).
Proof.
  intros (Hreq & Hwf & Hcfg & Hcl) Hl He.
  rewrite (lambda_handler_steps U event w s cfg Hreq Hwf Hcfg Hcl).
  rewrite (check_existing_other_error _ w e Hl He). cbn [bind].
  rewrite outer_clauses_raise. reflexivity.
Qed.

Lemma listing_other_failure_aborts_witness :
  lambda_handler latin1 (request "Acme-01") world_listing_unreachable =
    (Return (outer_answer unreachable),
     startup sample_config (normalize latin1 "Acme-01")
     ++ [Call ListKnowledgeBases; Print (outer_line unreachable)]).
Proof.
  apply (listing_other_failure_aborts latin1 (request "Acme-01")
           world_listing_unreachable "Acme-01" sample_config unreachable).
  - repeat split. eexists; split; reflexivity.
  - reflexivity.
  - reflexivity.
Defined.

(** X12. When the construction of the clients (lines 51-70) raises, the
    answer is the one of the outer clauses, after the three lines of lines
    46-48 and the line of the clause, and no call is made. *)
Theorem clients_failure_aborts (U : UnicodeData) (event : Event)
    (w : World) (s : str) (cfg : config) (e : exn) :
  requests event s ->
  well_formed U (normalize U s) = true ->
  read_config w = pure cfg ->
  clients w = Fails e ->
  lambda_handler U event w =
    (Return (outer_answer e),
     [ Print ("Creating Knowledge Base for client: " +++ normalize U s);
       Print ("Region: " +++ region cfg);
       Print ("S3 Bucket: " +++ s3_bucket_name cfg);
       Print (outer_line e) ])
  /\ calls_of (snd (lambda_handler U event w)) = [].
Proof.
  intros Hreq Hwf Hcfg Hcl.
  assert (H : lambda_handler U event w =
    (Return (outer_answer e),
     [ Print ("Creating Knowledge Base for client: " +++ normalize U s);
       Print ("Region: " +++ region cfg);
       Print ("S3 Bucket: " +++ s3_bucket_name cfg);
       Print (outer_line e) ])).
  { rewrite (lambda_handler_workflow U event w s Hreq Hwf).
    rewrite (workflow_clients_fail w cfg _ e Hcfg Hcl).
    apply outer_clauses_raise. }
  rewrite H. split; reflexivity.
Qed.

Lemma clients_failure_aborts_witness :
  lambda_handler latin1 (request "Acme-01")
    (with_clients (Fails unreachable) sample_world) =
    (Return (outer_answer unreachable),
     [ Print "Creating Knowledge Base for client: acme-01";
       Print "Region: us-east-1";
       Print "S3 Bucket: rag-uno-docs";
       Print (outer_line unreachable) ])
  /\ calls_of (snd (lambda_handler latin1 (request "Acme-01")
                      (with_clients (Fails unreachable) sample_world))) = [].
Proof.
  apply (clients_failure_aborts latin1 (request "Acme-01")
           (with_clients (Fails unreachable) sample_world) "Acme-01"
           sample_config unreachable).
  - eexists; split; reflexivity.
  - reflexivity.
  - reflexivity.
  - reflexivity.
Defined.

(* ===================================================================== *)
(** ** Requests that cannot be read                                       *)
(* ===================================================================== *)

(** An event without a ['body'] key is answered 400 with the message
    [Missing required field: 'body']: the [KeyError] of [event['body']]
    reaches the clause written for the fields of the body.  No call is
    made. *)
Lemma missing_body_key_rejected (U : UnicodeData) (w : World) :
  lambda_handler U {| event_body := None |} w =
    (Return (respond 400 (error_body "Missing required field: 'body'")),
     [Print "Missing required field: 'body'"]).
Proof. reflexivity. Qed.

(** X13. A body that is valid JSON but not an object is answered 500 with
    the message of the [TypeError] that [body['client_id']] raises; the
    handler prints it and makes no call. *)
Theorem non_object_body_internal_error (U : UnicodeData) (event : Event)
    (w : World) (v : json) :
  event_body event = Some (BodyJson v) ->
  (forall entries, v <> JDict entries) ->
  exists text,
    lambda_handler U event w =
      (Return (respond 500
         (error_body ("Internal server error: " +++ text))),
       [Print ("Error: " +++ text)]).
Proof.
  intros Hbody Hv. unfold lambda_handler, read_client_id, event_getitem_body.
  rewrite Hbody, bind_pure. cbn [json_loads]. rewrite bind_pure.
  destruct v as [ | b | z | f | x | l | entries ];
    try (eexists; reflexivity).
  now destruct (Hv entries).
Qed.

Lemma non_object_body_internal_error_witness :
  exists text,
    lambda_handler latin1 {| event_body := Some (BodyJson (JS "acme")) |}
      sample_world =
      (Return (respond 500
         (error_body ("Internal server error: " +++ text))),
       [Print ("Error: " +++ text)]).
Proof.
  apply (non_object_body_internal_error latin1 _ sample_world (JS "acme")).
  - reflexivity.
  - discriminate.
Defined.



(* ===================================================================== *)
(** ** Lines 20-36: which identifiers are accepted                        *)
(* ===================================================================== *)

Ltac bool_lia :=
  unfold is_ascii, spec_charset, between in *;
  repeat rewrite ?andb_true_iff, ?orb_true_iff, ?andb_false_iff,
    ?orb_false_iff, ?N.leb_le, ?N.ltb_lt, ?N.leb_gt, ?N.ltb_ge,
    ?N.eqb_eq, ?N.eqb_neq in *;
  lia.

Lemma well_formed_intro (U : UnicodeData) (client_id : str) :
  (2 <= List.length client_id)%nat ->
  (forall c, In c client_id ->
             c = 45%N \/ c = 95%N \/ isalnum_cp U c = true) ->
  (exists c, In c client_id /\ c <> 45%N /\ c <> 95%N) ->
  well_formed U client_id = true.
Proof.
  intros Hlen Hall (c & Hin & H45 & H95). unfold well_formed.
  apply andb_true_iff; split; [ now apply Nat.leb_le | ].
  change (of_string "-") with [45%N]. change (of_string "_") with [95%N].
  change (of_string "") with (@nil N). rewrite !replace_char_empty.
  assert (Hf : forall x,
    In x (filter (fun x => negb (x =? 95)%N)
            (filter (fun x => negb (x =? 45)%N) client_id))
    <-> In x client_id /\ x <> 45%N /\ x <> 95%N).
  { intro x. rewrite !filter_In, !negb_true_iff, !N.eqb_neq. tauto. }
  assert (Hc : In c (filter (fun x => negb (x =? 95)%N)
                       (filter (fun x => negb (x =? 45)%N) client_id)))
    by (apply Hf; tauto).
  unfold isalnum.
  destruct (filter (fun x => negb (x =? 95)%N)
              (filter (fun x => negb (x =? 45)%N) client_id))
    as [ | a rest ] eqn:E; [ destruct Hc | ].
  apply forallb_forall. intros x Hx. apply Hf in Hx as (Hx & Hx45 & Hx95).
  destruct (Hall x Hx) as [-> | [-> | H]]; [ now destruct Hx45
                                           | now destruct Hx95 | exact H ].
Qed.

Lemma well_formed_elim (U : UnicodeData) (client_id : str) :
  well_formed U client_id = true ->
  (2 <= List.length client_id)%nat
  /\ (forall c, In c client_id ->
                c = 45%N \/ c = 95%N \/ isalnum_cp U c = true)
  /\ (exists c, In c client_id /\ c <> 45%N /\ c <> 95%N).
Proof.
  intro Hwf. pose proof Hwf as Hwf'. unfold well_formed in Hwf'.
  apply andb_true_iff in Hwf' as [Hlen Hal]. apply Nat.leb_le in Hlen.
  split; [ exact Hlen | ].
  split; [ intros c Hin; apply (charset_test_passes U client_id c Hal Hin) | ].
  revert Hal.
  change (of_string "-") with [45%N]. change (of_string "_") with [95%N].
  change (of_string "") with (@nil N). rewrite !replace_char_empty.
  unfold isalnum.
  destruct (filter (fun x => negb (x =? 95)%N)
              (filter (fun x => negb (x =? 45)%N) client_id))
    as [ | a rest ] eqn:E; [ discriminate | ].
  intros _. exists a.
  assert (Ha : In a (filter (fun x => negb (x =? 95)%N)
                       (filter (fun x => negb (x =? 45)%N) client_id)))
    by (rewrite E; left; reflexivity).
  rewrite !filter_In, !negb_true_iff, !N.eqb_neq in Ha. tauto.
Qed.

(** X15. The tests of lines 20-36 let an identifier through exactly when
    it has at least 2 characters, each of them is alphanumeric for
    [str.isalnum], a hyphen or an underscore, and at least one of them is
    neither a hyphen nor an underscore. *)
Theorem validate_accepts_iff (U : UnicodeData) (client_id : str) :
  validate U client_id = pure tt
  <-> (2 <= List.length client_id)%nat
      /\ (forall c, In c client_id ->
                    c = 45%N \/ c = 95%N \/ isalnum_cp U c = true)
      /\ (exists c, In c client_id /\ c <> 45%N /\ c <> 95%N).
Proof.
  split.
  - intro Hv. apply well_formed_elim.
    destruct (well_formed U client_id) eqn:Hwf; [ reflexivity | ].
    destruct (Nat.lt_ge_cases (List.length client_id) 2) as [Hlen | Hlen].
    + rewrite (validate_short U _ Hlen) in Hv. discriminate Hv.
    + assert (Hal : isalnum U
                (replace (replace client_id "-" "") "_" "") = false).
      { unfold well_formed in Hwf. apply Nat.leb_le in Hlen.
        rewrite Hlen in Hwf. exact Hwf. }
      rewrite (validate_charset U _ Hlen Hal) in Hv. discriminate Hv.
  - intros (Hlen & Hall & Hex). apply validate_well_formed.
    apply (well_formed_intro U client_id Hlen Hall Hex).
Qed.

Lemma lower_from_ascii (U : UnicodeData) (before s : str) :
  forallb is_ascii s = true ->
  lower_from U before s =
    map (fun c => if between 65 90 c then (c + 32)%N else c) s.
Proof.
  revert before. induction s as [ | c rest IH ]; intros before H;
    [ reflexivity | ].
  cbn [forallb] in H. apply andb_true_iff in H as [Hc Hrest].
  cbn [lower_from map]. unfold is_ascii in Hc. rewrite Hc.
  cbn [app]. now rewrite IH.
Qed.

Lemma In_lstrip (U : UnicodeData) (s : str) (c : N) :
  In c (lstrip U s) -> In c s.
Proof.
  induction s as [ | a rest IH ]; [ tauto | ]. cbn [lstrip].
  destruct (isspace_cp U a); [ intro H; right; now apply IH | tauto ].
Qed.

Lemma In_strip (U : UnicodeData) (s : str) (c : N) :
  In c (strip U s) -> In c s.
Proof.
  unfold strip. intro H. apply in_rev in H. apply In_lstrip in H.
  apply in_rev in H. now apply In_lstrip in H.
Qed.

(** X16. An identifier sent in ASCII and accepted holds, once normalized,
    only characters of [a-z0-9_-]: on ASCII input the names of the
    resources are made of lower-case letters, digits, hyphens and
    underscores. *)
Theorem ascii_identifier_charset (U : UnicodeData) (s : str) :
  forallb is_ascii s = true ->
  well_formed U (normalize U s) = true ->
  forallb spec_charset (normalize U s) = true.
Proof.
  intros Hascii Hwf. apply forallb_forall. intros c Hin.
  destruct (well_formed_elim U _ Hwf) as (_ & Hall & _).
  specialize (Hall c Hin).
  unfold normalize in Hin. apply In_strip in Hin.
  unfold lower in Hin. rewrite (lower_from_ascii U [] s Hascii) in Hin.
  apply in_map_iff in Hin as (c0 & Hc & Hin0).
  rewrite forallb_forall in Hascii. specialize (Hascii c0 Hin0).
  assert (Hlow : (c < 128)%N /\ between 65 90 c = false).
  { destruct (between 65 90 c0) eqn:Hup; subst c; bool_lia. }
  destruct Hlow as [H128 Hup].
  destruct Hall as [-> | [-> | Hal]]; [ reflexivity | reflexivity | ].
  unfold isalnum_cp in Hal. apply N.ltb_lt in H128. rewrite H128 in Hal.
  rewrite Hup, orb_false_r in Hal.
  unfold spec_charset. apply orb_true_iff in Hal as [Hd | Hl].
  - rewrite Hd. now rewrite orb_true_r.
  - now rewrite Hl.
Qed.

Lemma ascii_identifier_charset_witness :
  forallb spec_charset (normalize latin1 " Acme_01-x ") = true.
Proof.
  apply (ascii_identifier_charset latin1 " Acme_01-x "); reflexivity.
Defined.

(* ===================================================================== *)
(** ** Line 61: the host of the search endpoint                          *)
(* ===================================================================== *)

Lemma startswith_In (s p : str) (c : N) :
  startswith s p = true -> In c p -> In c s.
Proof.
  revert s. induction p as [ | a p' IH ]; intros s H Hin; [ destruct Hin | ].
  destruct s as [ | b s' ]; [ discriminate H | ].
  cbn [startswith] in H. apply andb_true_iff in H as [Hab Hrest].
  apply N.eqb_eq in Hab. subst b.
  destruct Hin as [<- | Hin]; [ left; reflexivity | right ].
  now apply IH.
Qed.

(** A text that lacks a character of [old] holds no occurrence of [old]:
    [replace] leaves it as it is. *)
Lemma replace_absent (s old new : str) (c : N) :
  In c old -> ~ In c s -> replace s old new = s.
Proof.
  intros Hold. unfold replace. induction s as [ | a rest IH ]; intro Hs;
    [ reflexivity | ].
  cbn [replace_scan].
  destruct (startswith (a :: rest) old) eqn:E.
  - destruct Hs. apply (startswith_In _ old c E Hold).
  - rewrite IH; [ reflexivity | ]. intro H. apply Hs. now right.
Qed.

Lemma host_of_https (h : str) :
  ~ In 58%N h ->
  replace (replace ("https://" +++ h) "https://" "") "http://" "" = h.
Proof.
  intro Hh.
  assert (H1 : replace ("https://" +++ h) "https://" "" = h).
  { transitivity (replace h "https://" ""); [ reflexivity | ].
    apply (replace_absent h "https://" "" 58%N); [ | exact Hh ].
    cbn; tauto. }
  rewrite H1. apply (replace_absent h "http://" "" 58%N); [ | exact Hh ].
  cbn; tauto.
Qed.

Lemma host_of_http (h : str) :
  ~ In 58%N h ->
  replace (replace ("http://" +++ h) "https://" "") "http://" "" = h.
Proof.
  intro Hh.
  assert (H0 : replace h "https://" "" = h).
  { apply (replace_absent h "https://" "" 58%N); [ cbn; tauto | exact Hh ]. }
  assert (H1 : replace ("http://" +++ h) "https://" "" = "http://" +++ h).
  { transitivity
      ([104; 116; 116; 112; 58; 47; 47]%N ++ replace h "https://" "");
      [ | now rewrite H0 ].
    unfold replace. destruct h as [ | a rest ]; reflexivity. }
  rewrite H1.
  transitivity (replace h "http://" ""); [ reflexivity | ].
  apply (replace_absent h "http://" "" 58%N); [ cbn; tauto | exact Hh ].
Qed.

(** X17. When the clients are built and the configured endpoint is
    [https://HOST] or [http://HOST] with a [HOST] that holds no colon, or is
    such a [HOST] alone, the search client of an accepted request is built
    for [HOST]: line 61 strips the scheme and nothing else. *)
Theorem search_client_host (U : UnicodeData) (event : Event) (w : World)
    (s : str) (cfg : config) (h : str) :
  requests event s ->
  well_formed U (normalize U s) = true ->
  read_config w = pure cfg ->
  clients w = Ok tt ->
  ~ In 58%N h ->
  opensearch_collection_endpoint cfg = "https://" +++ h
  \/ opensearch_collection_endpoint cfg = "http://" +++ h
  \/ opensearch_collection_endpoint cfg = h ->
  In (Connect (region cfg) h) (snd (lambda_handler U event w)).
Proof.
  intros Hreq Hwf Hcfg Hcl Hh Hend.
  assert (Hhost :
    replace (replace (opensearch_collection_endpoint cfg) "https://" "")
      "http://" "" = h).
  { destruct Hend as [-> | [-> | ->]].
    - apply (host_of_https h Hh).
    - apply (host_of_http h Hh).
    - rewrite (replace_absent h "https://" "" 58%N); [ | cbn; tauto | exact Hh ].
      apply (replace_absent h "http://" "" 58%N); [ cbn; tauto | exact Hh ]. }
  assert (Hin : In (Connect (region cfg) h) (startup cfg (normalize U s))).
  { unfold startup. rewrite Hhost. cbn [In]. tauto. }
  rewrite (lambda_handler_workflow U event w s Hreq Hwf).
  rewrite (workflow_startup w cfg _ Hcfg Hcl), try_except_after, snd_after.
  apply in_or_app. left; exact Hin.
Qed.

Lemma search_client_host_witness :
  In (Connect "us-east-1" "c1.us-east-1.aoss.amazonaws.com")
     (snd (lambda_handler latin1 (request "Acme-01") sample_world)).
Proof.
  apply (search_client_host latin1 (request "Acme-01") sample_world
           "Acme-01" sample_config "c1.us-east-1.aoss.amazonaws.com").
  - eexists; split; reflexivity.
  - reflexivity.
  - reflexivity.
  - reflexivity.
  - vm_compute. intuition discriminate.
  - left; reflexivity.
Defined.

(* ===================================================================== *)
(** ** py_api_stack.py, lines 218-225, and create.py, lines 39-44         *)
(* ===================================================================== *)

(** X18. In a function whose environment holds the six entries the stack
    sets, the handler of create.py finds every variable it reads: the
    configuration is the one of the stack's resources and no variable is
    reported missing. *)
Theorem deployed_environment_complete (a : stack_attributes) (w : World) :
  (forall k v, In (k, v) (common_env a) ->
               env_lookup (environ w) k = Some v) ->
  read_config w = pure (deployed_config a)
  /\ first_missing (environ w) = None.
Proof.
  intro H.
  assert (H1 := H _ _ (or_introl eq_refl)).
  assert (H2 := H _ _ (or_intror (or_introl eq_refl))).
  assert (H3 := H _ _ (or_intror (or_intror (or_introl eq_refl)))).
  assert (H4 := H _ _ (or_intror (or_intror (or_intror (or_introl eq_refl))))).
  assert (H5 := H _ _ (or_intror (or_intror (or_intror (or_intror
                         (or_introl eq_refl)))))).
  assert (H6 := H _ _ (or_intror (or_intror (or_intror (or_intror
                         (or_intror (or_introl eq_refl))))))).
  split.
  - unfold read_config, os_environ.
    rewrite H2, bind_pure, H1, bind_pure, H3, bind_pure, H4, bind_pure,
      H5, bind_pure, H6, bind_pure.
    reflexivity.
  - unfold first_missing, required_variables, is_unset. cbn [find].
    now rewrite H2, H1, H3, H4, H5, H6.
Qed.

Lemma deployed_environment_complete_witness :
  read_config (with_environ (common_env sample_attributes) sample_world) =
    pure (deployed_config sample_attributes)
  /\ first_missing
       (environ (with_environ (common_env sample_attributes) sample_world))
     = None.
Proof.
  apply (deployed_environment_complete sample_attributes
           (with_environ (common_env sample_attributes) sample_world)).
  intros k v [H | [H | [H | [H | [H | [H | []]]]]]];
    injection H as <- <-; reflexivity.
Defined.

(* ===================================================================== *)
(** ** Lines 17-18: the normalized identifier                             *)
(* ===================================================================== *)

Lemma requests_unique (event : Event) (s s' : str) :
  requests event s -> requests event s' -> s = s'.
Proof.
  intros (entries & Hb & Hg) (entries' & Hb' & Hg').
  rewrite Hb in Hb'. injection Hb' as <-. congruence.
Qed.



Lemma lstrip_suffix (U : UnicodeData) (s : str) :
  exists pre, s = pre ++ lstrip U s.
Proof.
  induction s as [ | a rest [pre IH] ]; [ now exists [] | ].
  cbn [lstrip]. destruct (isspace_cp U a).
  - exists (a :: pre). cbn [app]. now rewrite <- IH.
  - now exists [].
Qed.

Lemma lstrip_fixed (U : UnicodeData) (s : str) :
  match s with [] => True | a :: _ => isspace_cp U a = false end ->
  lstrip U s = s.
Proof.
  destruct s as [ | a rest ]; [ reflexivity | ]. cbn [lstrip].
  now intros ->.
Qed.

Lemma lstrip_head (U : UnicodeData) (s : str) :
  match lstrip U s with [] => True | a :: _ => isspace_cp U a = false end.
Proof.
  induction s as [ | a rest IH ]; [ exact I | ]. cbn [lstrip].
  destruct (isspace_cp U a) eqn:E; [ exact IH | exact E ].
Qed.

(** What [strip] yields begins with a character that is not a space. *)
Lemma strip_head (U : UnicodeData) (s : str) :
  match strip U s with [] => True | a :: _ => isspace_cp U a = false end.
Proof.
  unfold strip.
  destruct (lstrip_suffix U (rev (lstrip U s))) as [pre Hpre].
  apply (f_equal (@rev N)) in Hpre. rewrite rev_involutive, rev_app_distr in Hpre.
  pose proof (lstrip_head U s) as Hhead. rewrite Hpre in Hhead.
  destruct (rev (lstrip U (rev (lstrip U s)))) as [ | a rest ];
    [ exact I | exact Hhead ].
Qed.

Lemma strip_idempotent (U : UnicodeData) (s : str) :
  strip U (strip U s) = strip U s.
Proof.
  pose proof (lstrip_fixed U (strip U s) (strip_head U s)) as H.
  unfold strip at 1. rewrite H. unfold strip.
  rewrite rev_involutive.
  rewrite (lstrip_fixed U (lstrip U (rev (lstrip U s))));
    [ reflexivity | apply lstrip_head ].
Qed.

(** X20. On ASCII input the normalization is idempotent: the [client_id]
    an answer carries, sent again, designates the same tenant. *)
Theorem normalize_idempotent_ascii (U : UnicodeData) (s : str) :
  forallb is_ascii s = true ->
  normalize U (normalize U s) = normalize U s.
Proof.
  intro Hascii. unfold normalize.
  assert (Hlow : forall c, In c (strip U (lower U s)) ->
                   is_ascii c = true /\ between 65 90 c = false).
  { intros c Hin. apply In_strip in Hin. unfold lower in Hin.
    rewrite (lower_from_ascii U [] s Hascii) in Hin.
    apply in_map_iff in Hin as (c0 & Hc & Hin0).
    rewrite forallb_forall in Hascii. specialize (Hascii c0 Hin0).
    destruct (between 65 90 c0) eqn:Hup; subst c; split; bool_lia. }
  assert (Hsame : lower U (strip U (lower U s)) = strip U (lower U s)).
  { unfold lower at 1. rewrite lower_from_ascii.
    - rewrite <- (map_id (strip U (lower U s))) at 2.
      apply map_ext_in. intros c Hin.
      destruct (Hlow c Hin) as [_ ->]. reflexivity.
    - apply forallb_forall. intros c Hin. apply (Hlow c Hin). }
  rewrite Hsame. apply strip_idempotent.
Qed.

Lemma normalize_idempotent_ascii_witness :
  normalize latin1 (normalize latin1 "  Acme-01 ") =
  normalize latin1 "  Acme-01 ".
Proof.
  apply (normalize_idempotent_ascii latin1 "  Acme-01 "). reflexivity.
Defined.

(* ===================================================================== *)
(** ** Steps 4 and 1 across two invocations                               *)
(* ===================================================================== *)

(** X21. The name under which an invocation creates a knowledge base is
    the name step 1 looks for: when a later request for the same
    identifier reaches step 1 and the listing then holds a record of that
    name, it is answered 409 and makes no call but the listing. *)
Theorem created_name_guards_retry (U : UnicodeData)
    (event event' : Event) (w w' : World) (s : str) (cfg' : config)
    (kb_name description role : str) (kb_conf storage : json)
    (l : list kb_summary) (kb : kb_summary) :
  requests event s ->
  In (CreateKnowledgeBase kb_name description role kb_conf storage)
     (calls_of (snd (lambda_handler U event w))) ->
  ready U event' w' s cfg' ->
  list_knowledge_bases w' = Ok l ->
  In kb l ->
  name kb = kb_name ->
  exists r,
    returned (lambda_handler U event' w') = Some r
    /\ statusCode r = 409%Z
    /\ calls_of (snd (lambda_handler U event' w')) = [ListKnowledgeBases].
Proof.
  intros Hreq Hin (Hreq' & Hwf' & Hcfg' & Hcl') Hl Hkb Hname.
  destruct (lambda_handler_runs U event w) as (r0 & cs & Hrun & [_ Hcs]).
  rewrite Hcs in Hin.
  assert (Hkbname : kb_name = "kb-" +++ normalize U s).
  { destruct Hrun as
      [ e _ | s0 _ _ | s0 _ _ _ | s0 k _ _ _ | s0 cfg e _ _ _ _
      | s0 cfg l0 kb0 _ _ _ | s0 cfg e _ _ _
      | s0 cfg r cs (Hreq0 & _) _ Hp ];
      cbn [In] in Hin; try tauto;
      try (destruct Hin as [H | []]; discriminate H).
    destruct Hin as [H | Hin]; [ discriminate H | ].
    rewrite (requests_unique event s s0 Hreq Hreq0).
    apply (provision_run_scoped w cfg _ r cs _ Hp Hin). }
  rewrite Hkbname in Hname.
  destruct (find_named_some (normalize U s) l
              (ex_intro _ kb (conj Hkb Hname))) as [kb1 Hfind].
  exists (conflict_response (normalize U s) kb1).
  rewrite (lambda_handler_steps U event' w' s cfg' Hreq' Hwf' Hcfg' Hcl').
  rewrite (check_existing_conflict _ w' l kb1 Hl Hfind).
  repeat split.
Qed.

Lemma created_name_guards_retry_witness :
  exists r,
    returned (lambda_handler latin1 (request "acme-01 ") world_with_acme)
      = Some r
    /\ statusCode r = 409%Z
    /\ calls_of (snd (lambda_handler latin1 (request "acme-01 ")
                        world_with_acme)) = [ListKnowledgeBases].
Proof.
  apply (created_name_guards_retry latin1 (request "acme-01 ")
           (request "acme-01 ") sample_world world_with_acme "acme-01 "
           sample_config "kb-acme-01"
           "Knowledge Base para cliente acme-01 - RAG Multi-tenant Demo"
           "arn:aws:iam::1:role/kb" knowledge_base_configuration
           (storage_configuration sample_config "acme-01")
           [acme_kb] acme_kb).
  - eexists; split; reflexivity.
  - vm_compute. tauto.
  - repeat split. eexists; split; reflexivity.
  - reflexivity.
  - left; reflexivity.
  - reflexivity.
Defined.
